(** * The FHIR sample producer (sample/fhir-producer/producer.py)

    A shallow embedding of the producer script: [create_producer] (the
    connection retry loop), [load_fhir_samples] (the sample loader),
    [generate_sample_fhir_resources] (the two built-in resources) and [main]
    (start-up and the send loop), followed by the properties of the
    specification settled on that embedding.

    Python text is modelled as [string], one character per code point below
    256.  Everything outside the script (the broker client, the file system,
    the clock, the environment) is a field of [world]; the two library
    functions the script calls on text, [json.loads] and [int], are
    parameters of the model. *)

From Stdlib Require Import ZArith Ascii String List Bool Lia DecimalString.
From stdpp Require Import base gmap strings list.

Local Open Scope Z_scope.
Set Warnings "-register-all".

(** ** Exceptions *)

(** The exception classes the script can meet.  [KeyboardInterrupt] and
    [SystemExit] derive from BaseException only; every other class derives
    from Exception. *)
Inductive exn : Type :=
| KafkaError (msg : string)
| OSError (msg : string)
| UnicodeDecodeError (msg : string)
| JSONDecodeError (doc : string)
| ValueError (msg : string)
| TypeError (msg : string)
| IndexError
| AttributeError
| OtherException (msg : string)
| KeyboardInterrupt
| SystemExit.

(** [isinstance(e, Exception)]: what [except Exception] catches. *)
Definition is_Exception (e : exn) : bool :=
  match e with
  | KeyboardInterrupt | SystemExit => false
  | _ => true
  end.

(** [isinstance(e, KafkaError)]: what [except KafkaError] catches. *)
Definition is_KafkaError (e : exn) : bool :=
  match e with
  | KafkaError _ => true
  | _ => false
  end.

Definition is_KeyboardInterrupt (e : exn) : bool :=
  match e with
  | KeyboardInterrupt => true
  | _ => false
  end.

(** ** Values *)

(** JSON-shaped Python data: dicts keep their insertion order, so an object
    is an association list. *)
Inductive json : Type :=
| JNull
| JBool (b : bool)
| JInt (n : Z)
| JStr (s : string)
| JArr (items : list json)
| JObj (fields : list (string * json)).

(** The values that can stand where the script passes a payload. *)
Inductive pyval : Type :=
| VStr (s : string)
| VData (j : json)
| VBytes (b : list ascii).

(** ** Observable events *)

Inductive level : Type := INFO | WARNING | ERROR.

#[global] Instance level_eq_dec : EqDecision level.
Proof. solve_decision. Defined.

Record producer_config : Type := {
  bootstrap_servers : string;
  acks : string;
  retries : Z;
  retry_backoff_ms : Z
}.

Record RecordMetadata : Type := {
  rm_topic : string;
  rm_partition : Z;
  rm_offset : Z
}.

(** One constructor per logging call of the script. *)
Inductive log_msg : Type :=
| MsgConnected
| MsgAttemptFailed (attempt max_retries : nat) (e : exn)
| MsgNoSamplesDir (samples_path : string)
| MsgLoadedSample (name : string)
| MsgErrorLoading (name : string) (e : exn)
| MsgStarting (topic : string)
| MsgSamplesPath (samples_path : string)
| MsgSendInterval (send_interval : Z)
| MsgAzureUrl (v : option string)
| MsgAzureTenant (v : option string)
| MsgUsingGenerated
| MsgLoadedCount (n : nat)
| MsgNoSamplesAvailable
| MsgSent (r : RecordMetadata)
| MsgSendFailed (e : exn)
| MsgSendUnexpected (e : exn)
| MsgStopping
| MsgStopped.

Inductive event : Type :=
| EvConnect (cfg : producer_config)
| EvLog (lvl : level) (m : log_msg)
| EvSleep (secs : Z)
| EvSend (topic : string) (value : pyval)
| EvGet (timeout : Z)
| EvClose.

(** ** The monad of the script: a trace of events and an outcome *)

(** [Running]: the loop was still going when the fuel of the model ended. *)
Inductive outcome (A : Type) : Type :=
| Returns (a : A)
| Raises (e : exn)
| Running.

Arguments Returns {A} a.
Arguments Raises {A} e.
Arguments Running {A}.

Definition M (A : Type) : Type := (list event * outcome A)%type.

Definition trace {A} (m : M A) : list event := fst m.
Definition result {A} (m : M A) : outcome A := snd m.

#[global] Instance M_ret : MRet M := fun A a => ([], Returns a).

#[global] Instance M_bind : MBind M := fun A B f m =>
  match snd m with
  | Returns a => (fst m ++ fst (f a), snd (f a))
  | Raises e => (fst m, Raises e)
  | Running => (fst m, Running)
  end.

Definition raise {A} (e : exn) : M A := ([], Raises e).

Definition emit (ev : event) : M unit := ([ev], Returns tt).

Definition log (lvl : level) (m : log_msg) : M unit := emit (EvLog lvl m).

(** [try: body / except ...: handler]: [handler e] is [None] when no except
    clause matches [e]. *)
Definition try_except {A} (body : M A) (handler : exn -> option (M A)) : M A :=
  match snd body with
  | Raises e =>
      match handler e with
      | Some h => (fst body ++ fst h, snd h)
      | None => body
      end
  | _ => body
  end.

(** [try: body / finally: cleanup].  The cleanup runs when the body returned
    or raised; an exception of the cleanup replaces the one of the body. *)
Definition try_finally {A} (body : M A) (cleanup : M unit) : M A :=
  match snd body with
  | Running => body
  | r =>
      (fst body ++ fst cleanup,
       match snd cleanup with
       | Returns _ => r
       | Raises e => Raises e
       | Running => Running
       end)
  end.

(** ** Text helpers *)

Definition dquote : ascii := "034"%char.

(** [str.isspace] on one character (code points below 256). *)
Definition py_isspace (c : ascii) : bool :=
  let n := N_of_ascii c in
  ((9 <=? n) && (n <=? 13) || (28 <=? n) && (n <=? 32)
   || (n =? 133) || (n =? 160))%N.

Fixpoint lstrip (s : string) : string :=
  match s with
  | EmptyString => EmptyString
  | String c s' => if py_isspace c then lstrip s' else s
  end.

Fixpoint rstrip (s : string) : string :=
  match s with
  | EmptyString => EmptyString
  | String c s' =>
      match rstrip s' with
      | EmptyString => if py_isspace c then EmptyString else String c EmptyString
      | r => String c r
      end
  end.

(** [s.strip()] *)
Definition strip (s : string) : string := rstrip (lstrip s).

(** Truth value of a Python string: non-empty. *)
Definition truthy (s : string) : bool :=
  match s with
  | EmptyString => false
  | _ => true
  end.

(** [name] ends with [suffix]. *)
Definition ends_with (suffix name : string) : bool :=
  String.prefix (String.rev suffix) (String.rev name).

(** ** [json.dumps] with its default settings *)

Definition hex_digit (n : N) : ascii :=
  ascii_of_N (if (n <? 10)%N then 48 + n else 87 + n)%N.

(** One character inside a JSON string literal, as [ensure_ascii] writes it:
    the short escapes, [\u00xx] for what lies outside space..tilde. *)
Definition escape_char (c : ascii) : string :=
  let n := N_of_ascii c in
  let bs := "092"%char in
  if (n =? 34)%N then String bs (String dquote EmptyString)
  else if (n =? 92)%N then String bs (String bs EmptyString)
  else if (n =? 10)%N then String bs "n"
  else if (n =? 13)%N then String bs "r"
  else if (n =? 9)%N then String bs "t"
  else if (n =? 12)%N then String bs "f"
  else if (n =? 8)%N then String bs "b"
  else if ((32 <=? n) && (n <=? 126))%N then String c EmptyString
  else String bs ("u00" +:+ String (hex_digit (n / 16)) (String (hex_digit (n mod 16)) EmptyString)).

Fixpoint escape_string (s : string) : string :=
  match s with
  | EmptyString => EmptyString
  | String c s' => escape_char c +:+ escape_string s'
  end.

Definition encode_basestring (s : string) : string :=
  String dquote (escape_string s +:+ String dquote EmptyString).

(** [sep.join(parts)] *)
Fixpoint join (sep : string) (parts : list string) : string :=
  match parts with
  | [] => EmptyString
  | [p] => p
  | p :: rest => p +:+ sep +:+ join sep rest
  end.

Definition str_of_int (n : Z) : string :=
  DecimalString.NilZero.string_of_int (Z.to_int n).

Fixpoint json_dumps (j : json) : string :=
  match j with
  | JNull => "null"
  | JBool true => "true"
  | JBool false => "false"
  | JInt n => str_of_int n
  | JStr s => encode_basestring s
  | JArr items => "[" +:+ join ", " (map json_dumps items) +:+ "]"
  | JObj fields =>
      "{" +:+ join ", "
                (map (fun kv => encode_basestring (fst kv) +:+ ": " +:+ json_dumps (snd kv))
                     fields)
          +:+ "}"
  end.

(** ** The serializers handed to the client *)

(** [s.encode('utf-8')] for code points below 256. *)
Definition utf8_char (c : ascii) : list ascii :=
  let n := N_of_ascii c in
  if (n <? 128)%N then [c]
  else [ascii_of_N (192 + n / 64); ascii_of_N (128 + n mod 64)].

Fixpoint utf8_encode (s : string) : list ascii :=
  match s with
  | EmptyString => []
  | String c s' => utf8_char c ++ utf8_encode s'
  end.

(** Which arm of the conditional expression of [value_serializer] runs. *)
Inductive serializer_branch : Type := EncodeText | DumpStructured.

Definition value_serializer_branch (x : pyval) : serializer_branch :=
  match x with
  | VStr _ => EncodeText
  | _ => DumpStructured
  end.

(** [lambda x: x.encode('utf-8') if isinstance(x, str)
               else json.dumps(x).encode('utf-8')];
    [json.dumps] of a bytes object raises TypeError. *)
Definition value_serializer (x : pyval) : exn + list ascii :=
  match x with
  | VStr s => inr (utf8_encode s)
  | VData j => inr (utf8_encode (json_dumps j))
  | VBytes _ => inl (TypeError "Object of type bytes is not JSON serializable")
  end.

(** ** [generate_sample_fhir_resources] *)

Definition sample_patient : json :=
  JObj [
    ("resourceType", JStr "Patient");
    ("id", JStr "example-patient-1");
    ("identifier", JArr [
       JObj [
         ("system", JStr "http://hospital.example.org/patients");
         ("value", JStr "12345")
       ]
     ]);
    ("name", JArr [
       JObj [
         ("use", JStr "official");
         ("family", JStr "Doe");
         ("given", JArr [JStr "John"])
       ]
     ]);
    ("gender", JStr "male");
    ("birthDate", JStr "1990-01-01");
    ("active", JBool true)
  ].

Definition sample_observation : json :=
  JObj [
    ("resourceType", JStr "Observation");
    ("id", JStr "example-observation-1");
    ("status", JStr "final");
    ("category", JArr [
       JObj [
         ("coding", JArr [
            JObj [
              ("system", JStr "http://terminology.hl7.org/CodeSystem/observation-category");
              ("code", JStr "vital-signs");
              ("display", JStr "Vital Signs")
            ]
          ])
       ]
     ]);
    ("code", JObj [
       ("coding", JArr [
          JObj [
            ("system", JStr "http://loinc.org");
            ("code", JStr "8867-4");
            ("display", JStr "Heart rate")
          ]
        ])
     ]);
    ("subject", JObj [
       ("reference", JStr "Patient/example-patient-1")
     ]);
    ("valueQuantity", JObj [
       ("value", JInt 72);
       ("unit", JStr "beats/minute");
       ("system", JStr "http://unitsofmeasure.org");
       ("code", JStr "/min")
     ])
  ].

Definition generate_sample_fhir_resources : list json :=
  [sample_patient; sample_observation].

(** ** The world outside the script *)

(** What reading one directory entry gives: its text, or the exception that
    [open] or [read] raises. *)
Inductive read_result : Type :=
| ReadText (text : string)
| ReadOSError (msg : string)
| ReadUnicodeError (msg : string).

Record dirent : Type := {
  d_name : string;
  d_read : read_result
}.

Inductive producer : Type := Producer (cfg : producer_config).

(** What [Path(p).exists()] and the listing [Path(p).glob('*.json')] find at
    a samples path.  [Reported None]: [exists()] returns False.
    [Reported (Some entries)]: [exists()] returns True and the listing gives
    [entries], in listing order.  [ExistsRaises msg]: [exists()] raises an
    OSError (it passes on every error of [stat] but a missing path: a parent
    that may not be searched, a name too long).  [ListingRaises msg]:
    [exists()] returns True and reading the listing raises an OSError, before
    the first entry is handed over. *)
Inductive dir_state : Type :=
| Reported (found : option (list dirent))
| ExistsRaises (msg : string)
| ListingRaises (msg : string).

(** A reported state is written as the option it carries. *)
#[warning="-uniform-inheritance"]
Coercion Reported : option >-> dir_state.

(** The behaviour of everything the script calls.  [environ] is the process
    environment once [load_dotenv()] has run.  [directory p] is the state of
    the samples path [p]: [None] when [Path(p).exists()] is false,
    [Some entries] for the entries of [p] in listing order, or one of the two
    errors of [dir_state].  The outcomes of the client and of the clock are
    indexed by the attempt (connection phase) or by the iteration (send loop)
    in which the call is made; [None] means the call returns, [Some e] that it
    raises [e]. *)
Record world : Type := {
  environ : gmap string string;
  directory : string -> dir_state;
  connect_outcome : nat -> option exn;
  retry_sleep_outcome : nat -> option exn;
  send_outcome : nat -> option exn;
  get_outcome : nat -> exn + RecordMetadata;
  sleep_outcome : nat -> option exn;
  close_outcome : option exn
}.

Section Producer.

(** [json_accepts s]: [json.loads(s)] returns (it raises JSONDecodeError
    otherwise).  [int_of_str s]: the value of [int(s)], [None] when it raises
    ValueError. *)
Variable json_accepts : string -> bool.
Variable int_of_str : string -> option Z.
Variable w : world.

(** [os.getenv(key, dflt)] and [os.getenv(key)] *)
Definition os_getenv (key dflt : string) : string := default dflt (environ w !! key).
Definition os_getenv_opt (key : string) : option string := environ w !! key.


(** [time.sleep(secs)] for a whole number of seconds; [interrupted] is the
    exception that ends the wait.  A negative length is refused before any
    wait.  Of the lengths from 0 on, the clock modelled here accepts every
    one; [time.sleep] accepts those up to [sleep_max], so what is stated of
    a wait is stated of the script for lengths up to [sleep_max]. *)
Definition time_sleep (interrupted : option exn) (secs : Z) : M unit :=
  if secs <? 0 then raise (ValueError "sleep length must be non-negative")
  else
    emit (EvSleep secs);;
    match interrupted with
    | None => mret tt
    | Some e => raise e
    end.

Definition json_loads (s : string) : M unit :=
  if json_accepts s then mret tt else raise (JSONDecodeError s).

Definition py_int (s : string) : M Z :=
  match int_of_str s with
  | Some n => mret n
  | None => raise (ValueError s)
  end.

(** ** [create_producer] *)

Definition max_retries : nat := 10.
Definition retry_delay : Z := 5.

Definition client_config : producer_config :=
  {| bootstrap_servers := os_getenv "KAFKA_BOOTSTRAP_SERVERS" "localhost:9092";
     acks := "all";
     retries := 3;
     retry_backoff_ms := 1000 |}.

(** The call [KafkaProducer(...)] of attempt number [attempt]. *)
Definition KafkaProducer (attempt : nat) : M producer :=
  emit (EvConnect client_config);;
  match connect_outcome w attempt with
  | None => mret (Producer client_config)
  | Some e => raise e
  end.

(** The body of the [for] loop; [Some p] is [return producer], [None] goes
    on to the next attempt. *)
Definition create_producer_attempt (attempt : nat) : M (option producer) :=
  try_except
    (producer ← KafkaProducer attempt;
     log INFO MsgConnected;;
     mret (Some producer))
    (fun e =>
       if is_Exception e then
         Some (log WARNING (MsgAttemptFailed (attempt + 1) max_retries e);;
               if (attempt <? max_retries - 1)%nat
               then time_sleep (retry_sleep_outcome w attempt) retry_delay;; mret None
               else raise e)
       else None).

(** [for attempt in attempts: ...]; a loop that runs out returns Python's
    None. *)
Fixpoint create_producer_for (attempts : list nat) : M (option producer) :=
  match attempts with
  | [] => mret None
  | attempt :: rest =>
      r ← create_producer_attempt attempt;
      match r with
      | Some producer => mret (Some producer)
      | None => create_producer_for rest
      end
  end.

Definition create_producer : M (option producer) :=
  create_producer_for (seq 0 max_retries).

(** ** [load_fhir_samples] *)

(** [samples_dir.glob('*.json')] keeps the entries whose name ends in .json *)
Definition glob_json (d : dirent) : bool := ends_with ".json" (d_name d).

(** [open(file_path, 'r')] followed by [f.read()] *)
Definition open_read (d : dirent) : M string :=
  match d_read d with
  | ReadText text => mret text
  | ReadOSError msg => raise (OSError msg)
  | ReadUnicodeError msg => raise (UnicodeDecodeError msg)
  end.

(** One iteration of the [for file_path in ...] loop: the list [samples]
    before, the list after. *)
Definition load_one (samples : list pyval) (d : dirent) : M (list pyval) :=
  try_except
    (text ← open_read d;
     let content := strip text in
     if truthy content then
       json_loads content;;
       let samples := samples ++ [VStr content] in
       log INFO (MsgLoadedSample (d_name d));;
       mret samples
     else mret samples)
    (fun e =>
       if is_Exception e
       then Some (log ERROR (MsgErrorLoading (d_name d) e);; mret samples)
       else None).

Fixpoint load_all (samples : list pyval) (files : list dirent) : M (list pyval) :=
  match files with
  | [] => mret samples
  | d :: rest => samples ← load_one samples d; load_all samples rest
  end.

(** [samples_dir.exists()] and the listing the [for] loop iterates stand
    outside the [try]: what they raise leaves the function. *)
Definition load_fhir_samples (samples_path : string) : M (list pyval) :=
  match directory w samples_path with
  | ExistsRaises msg => raise (OSError msg)
  | Reported None => log WARNING (MsgNoSamplesDir samples_path);; mret []
  | Reported (Some entries) => load_all [] (List.filter glob_json entries)
  | ListingRaises msg => raise (OSError msg)
  end.

(** ** [main] *)

(** [producer.send(topic, value=value)] in iteration [i]: the client runs the
    value serializer, then queues the record.  No key is passed; the key
    serializer maps the missing key to None. *)
Definition producer_send (p : option producer) (topic : string) (i : nat)
    (value : pyval) : M unit :=
  match p with
  | None => raise AttributeError
  | Some _ =>
      emit (EvSend topic value);;
      match value_serializer value with
      | inl e => raise e
      | inr _ =>
          match send_outcome w i with
          | None => mret tt
          | Some e => raise e
          end
      end
  end.

(** [future.get(timeout=timeout)] in iteration [i] *)
Definition future_get (i : nat) (timeout : Z) : M RecordMetadata :=
  emit (EvGet timeout);;
  match get_outcome w i with
  | inr r => mret r
  | inl e => raise e
  end.

(** [producer.close()] *)
Definition producer_close (p : option producer) : M unit :=
  match p with
  | None => raise AttributeError
  | Some _ =>
      emit EvClose;;
      match close_outcome w with
      | None => mret tt
      | Some e => raise e
      end
  end.

(** The inner [try] of the loop: send, wait for the acknowledgement, log. *)
Definition send_attempt (p : option producer) (topic : string) (i : nat)
    (fhir_resource : pyval) : M unit :=
  try_except
    (producer_send p topic i fhir_resource;;
     r ← future_get i 10;
     log INFO (MsgSent r))
    (fun e =>
       if is_KafkaError e then Some (log ERROR (MsgSendFailed e))
       else if is_Exception e then Some (log ERROR (MsgSendUnexpected e))
       else None).

(** The body of [while True], iteration [i]: from the cursor before to the
    cursor after. *)
Definition loop_body (p : option producer) (topic : string) (send_interval : Z)
    (fhir_samples : list pyval) (i : nat) (sample_index : nat) : M nat :=
  match fhir_samples with
  | [] =>
      log WARNING MsgNoSamplesAvailable;;
      time_sleep (sleep_outcome w i) send_interval;;
      mret sample_index
  | _ =>
      match fhir_samples !! (sample_index mod length fhir_samples)%nat with
      | None => raise IndexError
      | Some fhir_resource =>
          let sample_index := S sample_index in
          send_attempt p topic i fhir_resource;;
          time_sleep (sleep_outcome w i) send_interval;;
          mret sample_index
      end
  end.

(** [while True: ...], cut after [fuel] iterations. *)
Fixpoint while_true (p : option producer) (topic : string) (send_interval : Z)
    (fhir_samples : list pyval) (fuel : nat) (i : nat) (sample_index : nat) : M unit :=
  match fuel with
  | O => ([], Running)
  | S fuel' =>
      sample_index ← loop_body p topic send_interval fhir_samples i sample_index;
      while_true p topic send_interval fhir_samples fuel' (S i) sample_index
  end.

(** The [try ... except KeyboardInterrupt ... finally] block of [main]. *)
Definition send_loop (p : option producer) (topic : string) (send_interval : Z)
    (fhir_samples : list pyval) (fuel : nat) : M unit :=
  try_finally
    (try_except
       (while_true p topic send_interval fhir_samples fuel 0 0)
       (fun e => if is_KeyboardInterrupt e then Some (log INFO MsgStopping) else None))
    (producer_close p;;
     log INFO MsgStopped).

(** The [if not fhir_samples: ...] block of [main]: the loaded samples, or
    the serialized built-in resources when none was loaded. *)
Definition effective_samples (loaded : list pyval) : M (list pyval) :=
  match loaded with
  | [] =>
      log INFO MsgUsingGenerated;;
      let generated_samples := generate_sample_fhir_resources in
      mret (map (fun sample => VStr (json_dumps sample)) generated_samples)
  | _ => mret loaded
  end.

(** Everything [main] does before the send loop. *)
Definition startup : M (option producer * string * Z * list pyval) :=
  let topic := os_getenv "KAFKA_TOPIC" "fhir-resources" in
  let samples_path := os_getenv "FHIR_SAMPLES_PATH" "/app/samples" in
  send_interval ← py_int (os_getenv "SEND_INTERVAL_SECONDS" "10");
  let azure_tenant_id := os_getenv_opt "AZURE_TENANT_ID" in
  let azure_client_id := os_getenv_opt "AZURE_CLIENT_ID" in
  let azure_client_secret := os_getenv_opt "AZURE_CLIENT_SECRET" in
  let azure_fhir_url := os_getenv_opt "AZURE_FHIR_URL" in
  let azure_scope := os_getenv "AZURE_SCOPE" "https://azurehealthcareapis.com/.default" in
  log INFO (MsgStarting topic);;
  log INFO (MsgSamplesPath samples_path);;
  log INFO (MsgSendInterval send_interval);;
  log INFO (MsgAzureUrl azure_fhir_url);;
  log INFO (MsgAzureTenant azure_tenant_id);;
  p ← create_producer;
  fhir_samples ← load_fhir_samples samples_path;
  fhir_samples ← effective_samples fhir_samples;
  log INFO (MsgLoadedCount (length fhir_samples));;
  mret (p, topic, send_interval, fhir_samples).

Definition main (fuel : nat) : M unit :=
  '(p, topic, send_interval, fhir_samples) ← startup;
  send_loop p topic send_interval fhir_samples fuel.

End Producer.

(** ** Reference instances of the two library parameters

    A recognizer of the JSON grammar as [json.loads] reads it and a reader of
    decimal integers as [int] reads them.  The properties below hold for
    every instance of the parameters; these two serve to run the model on
    concrete files and environments. *)

Module Ref.

Definition is_digit (c : ascii) : bool :=
  let n := N_of_ascii c in ((48 <=? n) && (n <=? 57))%N.

Definition is_hex (c : ascii) : bool :=
  let n := N_of_ascii c in
  ((48 <=? n) && (n <=? 57) || (65 <=? n) && (n <=? 70) || (97 <=? n) && (n <=? 102))%N.

(** The whitespace of the JSON decoder: space, tab, line feed, return. *)
Definition is_json_ws (c : ascii) : bool :=
  let n := N_of_ascii c in ((n =? 32) || (n =? 9) || (n =? 10) || (n =? 13))%N.

Fixpoint skip_ws (s : string) : string :=
  match s with
  | String c s' => if is_json_ws c then skip_ws s' else s
  | EmptyString => s
  end.

(** [expect lit s]: the rest of [s] after the prefix [lit]. *)
Fixpoint expect (lit s : string) : option string :=
  match lit, s with
  | EmptyString, _ => Some s
  | String a lit', String b s' => if Ascii.eqb a b then expect lit' s' else None
  | _, EmptyString => None
  end.

(** After the opening quote: up to and including the closing quote. *)
Fixpoint scan_string (s : string) : option string :=
  match s with
  | EmptyString => None
  | String c s' =>
      if Ascii.eqb c dquote then Some s'
      else if Ascii.eqb c "092" then
        match s' with
        | String e s'' =>
            if Ascii.eqb e "u" then
              match s'' with
              | String h1 (String h2 (String h3 (String h4 rest))) =>
                  if is_hex h1 && is_hex h2 && is_hex h3 && is_hex h4
                  then scan_string rest else None
              | _ => None
              end
            else if Ascii.eqb e dquote || Ascii.eqb e "092" || Ascii.eqb e "/"
                    || Ascii.eqb e "b" || Ascii.eqb e "f" || Ascii.eqb e "n"
                    || Ascii.eqb e "r" || Ascii.eqb e "t"
            then scan_string s''
            else None
        | EmptyString => None
        end
      else if (N_of_ascii c <? 32)%N then None
      else scan_string s'
  end.

Fixpoint skip_digits (s : string) : string :=
  match s with
  | String c s' => if is_digit c then skip_digits s' else s
  | EmptyString => s
  end.

(** One or more digits. *)
Definition scan_digits1 (s : string) : option string :=
  match s with
  | String c s' => if is_digit c then Some (skip_digits s') else None
  | EmptyString => None
  end.

(** The fraction and the exponent, each taken only when it is whole. *)
Definition scan_frac_exp (s : string) : string :=
  let s1 :=
    match s with
    | String "." s' => default s (scan_digits1 s')
    | _ => s
    end in
  match s1 with
  | String c s' =>
      if Ascii.eqb c "e" || Ascii.eqb c "E" then
        let s'' :=
          match s' with
          | String sg t => if Ascii.eqb sg "+" || Ascii.eqb sg "-" then t else s'
          | EmptyString => s'
          end in
        default s1 (scan_digits1 s'')
      else s1
  | EmptyString => s1
  end.

(** The integer part (no sign): 0, or a digit 1-9 and more digits. *)
Definition scan_int_part (s : string) : option string :=
  match s with
  | String c s' =>
      if Ascii.eqb c "0" then Some s'
      else if is_digit c then Some (skip_digits s')
      else None
  | EmptyString => None
  end.

Definition scan_number (s : string) : option string :=
  let body :=
    match s with
    | String "-" s' => s'
    | _ => s
    end in
  scan_frac_exp <$> scan_int_part body.

(** [scan_value]: one value at the head of [s]; [scan_elements]: the
    elements of an array up to its bracket; [scan_members]: the members of
    an object up to its brace. *)
Fixpoint scan_value (fuel : nat) (s : string) : option string :=
  match fuel with
  | O => None
  | S fuel' =>
      match s with
      | EmptyString => None
      | String c s' =>
          if Ascii.eqb c dquote then scan_string s'
          else if Ascii.eqb c "{" then
            match skip_ws s' with
            | String "}" rest => Some rest
            | body => scan_members fuel' body
            end
          else if Ascii.eqb c "[" then
            match skip_ws s' with
            | String "]" rest => Some rest
            | body => scan_elements fuel' body
            end
          else if Ascii.eqb c "n" then expect "null" s
          else if Ascii.eqb c "t" then expect "true" s
          else if Ascii.eqb c "f" then expect "false" s
          else if Ascii.eqb c "N" then expect "NaN" s
          else if Ascii.eqb c "I" then expect "Infinity" s
          else
            match scan_number s with
            | Some rest => Some rest
            | None => expect "-Infinity" s
            end
      end
  end
with scan_elements (fuel : nat) (s : string) : option string :=
  match fuel with
  | O => None
  | S fuel' =>
      match scan_value fuel' s with
      | None => None
      | Some rest =>
          match skip_ws rest with
          | String "," rest' => scan_elements fuel' (skip_ws rest')
          | String "]" rest' => Some rest'
          | _ => None
          end
      end
  end
with scan_members (fuel : nat) (s : string) : option string :=
  match fuel with
  | O => None
  | S fuel' =>
      match s with
      | String c s' =>
          if Ascii.eqb c dquote then
            match scan_string s' with
            | None => None
            | Some rest =>
                match skip_ws rest with
                | String ":" rest' =>
                    match scan_value fuel' (skip_ws rest') with
                    | None => None
                    | Some rest'' =>
                        match skip_ws rest'' with
                        | String "," rest3 => scan_members fuel' (skip_ws rest3)
                        | String "}" rest3 => Some rest3
                        | _ => None
                        end
                    end
                | _ => None
                end
            end
          else None
      | EmptyString => None
      end
  end.

(** [json.loads(s)] returns: one value, whitespace around it, nothing more. *)
Definition json_accepts (s : string) : bool :=
  match scan_value (2 * String.length s + 2) (skip_ws s) with
  | Some rest =>
      match skip_ws rest with
      | EmptyString => true
      | _ => false
      end
  | None => false
  end.

(** Digits with single underscores between them, read into [acc]. *)
Fixpoint read_digits (acc : Z) (after_digit : bool) (s : string) : option Z :=
  match s with
  | EmptyString => if after_digit then Some acc else None
  | String c s' =>
      if is_digit c then read_digits (10 * acc + Z.of_N (N_of_ascii c) - 48) true s'
      else if Ascii.eqb c "_" && after_digit then read_digits acc false s'
      else None
  end.

(** [int(s)]: surrounding whitespace, an optional sign, decimal digits. *)
Definition int_of_str (s : string) : option Z :=
  match strip s with
  | String "-" s' => Z.opp <$> read_digits 0 false s'
  | String "+" s' => read_digits 0 false s'
  | s' => read_digits 0 false s'
  end.

End Ref.

(** ** Reading a trace *)

(** The waits of a trace, in order. *)
Definition sleeps (tr : list event) : list Z :=
  omap (fun ev => match ev with EvSleep secs => Some secs | _ => None end) tr.

(** The records handed to the client, in order. *)
Definition sends (tr : list event) : list (string * pyval) :=
  omap (fun ev => match ev with EvSend topic v => Some (topic, v) | _ => None end) tr.

(** The log records of one level, in order. *)
Definition logged (lvl : level) (tr : list event) : list log_msg :=
  omap (fun ev =>
          match ev with
          | EvLog l m => if decide (l = lvl) then Some m else None
          | _ => None
          end) tr.

Definition is_connect (ev : event) : bool :=
  match ev with EvConnect _ => true | _ => false end.

Definition is_close (ev : event) : bool :=
  match ev with EvClose => true | _ => false end.

(** How often the client constructor was called. *)
Definition attempts_made (tr : list event) : nat := length (List.filter is_connect tr).

(** How often the connection was closed. *)
Definition closes (tr : list event) : nat := length (List.filter is_close tr).

(** What a failed attempt that is followed by another one leaves in the
    trace: the call, the warning, the wait. *)
Definition failed_attempt (w : world) (attempt : nat) : list event :=
  match connect_outcome w attempt with
  | Some e =>
      [EvConnect (client_config w);
       EvLog WARNING (MsgAttemptFailed (attempt + 1) max_retries e);
       EvSleep retry_delay]
  | None => []
  end.

(** ** Reading a directory entry *)

(** The text the loader keeps for an entry: the trimmed text of a readable
    file that is non-empty after trimming and that [json.loads] accepts. *)
Definition accepted_text (json_accepts : string -> bool) (d : dirent) : option string :=
  match d_read d with
  | ReadText text =>
      if truthy (strip text) && json_accepts (strip text) then Some (strip text) else None
  | _ => None
  end.

(** The exception an entry makes the loader catch: the file cannot be read,
    or its trimmed text is non-empty and [json.loads] refuses it. *)
Definition load_error (json_accepts : string -> bool) (d : dirent) : option exn :=
  match d_read d with
  | ReadText text =>
      if truthy (strip text) && negb (json_accepts (strip text))
      then Some (JSONDecodeError (strip text)) else None
  | ReadOSError msg => Some (OSError msg)
  | ReadUnicodeError msg => Some (UnicodeDecodeError msg)
  end.

(** A readable file with nothing left after trimming. *)
Definition is_blank (d : dirent) : bool :=
  match d_read d with
  | ReadText text => negb (truthy (strip text))
  | _ => false
  end.

(** What one entry leaves in the trace of the loader. *)
Definition load_events (json_accepts : string -> bool) (d : dirent) : list event :=
  match accepted_text json_accepts d, load_error json_accepts d with
  | Some _, _ => [EvLog INFO (MsgLoadedSample (d_name d))]
  | None, Some e => [EvLog ERROR (MsgErrorLoading (d_name d) e)]
  | None, None => []
  end.

(** The entries [glob('*.json')] yields, for a directory that exists. *)
Definition json_files (entries : list dirent) : list dirent :=
  List.filter glob_json entries.

(** Non-empty trimmed content that [json.loads] accepts. *)
Definition is_valid_sample (json_accepts : string -> bool) (d : dirent) : bool :=
  match d_read d with
  | ReadText text => truthy (strip text) && json_accepts (strip text)
  | _ => false
  end.

(** The list [load_fhir_samples] returns for a directory with these entries. *)
Definition loaded_from (json_accepts : string -> bool) (entries : list dirent) : list pyval :=
  omap (fun d => VStr <$> accepted_text json_accepts d) (json_files entries).

(** ** The built-in resources, read back *)

(** The field names of an object, in order. *)
Definition json_keys (j : json) : list string :=
  match j with
  | JObj fields => map fst fields
  | _ => []
  end.

(** [j[key]] for an object [j]. *)
Definition json_field (key : string) (j : json) : option json :=
  match j with
  | JObj fields => snd <$> List.find (fun kv => String.eqb (fst kv) key) fields
  | _ => None
  end.

Definition quoted (s : string) : string := String dquote (s +:+ String dquote EmptyString).

(** The text of the Patient resource, written out. *)
Definition patient_text : string :=
  String.concat EmptyString
    ["{"; quoted "resourceType"; ": "; quoted "Patient"; ", ";
     quoted "id"; ": "; quoted "example-patient-1"; ", ";
     quoted "identifier"; ": [{";
       quoted "system"; ": "; quoted "http://hospital.example.org/patients"; ", ";
       quoted "value"; ": "; quoted "12345"; "}], ";
     quoted "name"; ": [{";
       quoted "use"; ": "; quoted "official"; ", ";
       quoted "family"; ": "; quoted "Doe"; ", ";
       quoted "given"; ": ["; quoted "John"; "]}], ";
     quoted "gender"; ": "; quoted "male"; ", ";
     quoted "birthDate"; ": "; quoted "1990-01-01"; ", ";
     quoted "active"; ": true}"].

(** The text of the Observation resource, written out. *)
Definition observation_text : string :=
  String.concat EmptyString
    ["{"; quoted "resourceType"; ": "; quoted "Observation"; ", ";
     quoted "id"; ": "; quoted "example-observation-1"; ", ";
     quoted "status"; ": "; quoted "final"; ", ";
     quoted "category"; ": [{"; quoted "coding"; ": [{";
       quoted "system"; ": ";
       quoted "http://terminology.hl7.org/CodeSystem/observation-category"; ", ";
       quoted "code"; ": "; quoted "vital-signs"; ", ";
       quoted "display"; ": "; quoted "Vital Signs"; "}]}], ";
     quoted "code"; ": {"; quoted "coding"; ": [{";
       quoted "system"; ": "; quoted "http://loinc.org"; ", ";
       quoted "code"; ": "; quoted "8867-4"; ", ";
       quoted "display"; ": "; quoted "Heart rate"; "}]}, ";
     quoted "subject"; ": {";
       quoted "reference"; ": "; quoted "Patient/example-patient-1"; "}, ";
     quoted "valueQuantity"; ": {";
       quoted "value"; ": 72, ";
       quoted "unit"; ": "; quoted "beats/minute"; ", ";
       quoted "system"; ": "; quoted "http://unitsofmeasure.org"; ", ";
       quoted "code"; ": "; quoted "/min"; "}}"].

(** The two built-in payloads, in the order of the script. *)
Definition default_payloads : list pyval := [VStr patient_text; VStr observation_text].

(** ** Reading one iteration of the send loop *)

(** The sample the cursor value [i] selects. *)
Definition select (samples : list pyval) (i : nat) : option pyval :=
  samples !! (i mod length samples)%nat.

(** The exception raised inside the inner [try] of iteration [i] when
    [value] is sent: by the serializer, by [send], or by [get]. *)
Definition send_failure (w : world) (i : nat) (value : pyval) : option exn :=
  match value_serializer value with
  | inl e => Some e
  | inr _ =>
      match send_outcome w i with
      | Some e => Some e
      | None =>
          match get_outcome w i with
          | inl e => Some e
          | inr _ => None
          end
      end
  end.

(** What the two [except] clauses of the inner [try] log for [e]. *)
Definition handler_events (e : exn) : list event :=
  if is_KafkaError e then [EvLog ERROR (MsgSendFailed e)]
  else if is_Exception e then [EvLog ERROR (MsgSendUnexpected e)]
  else [].

(** The trace of the inner [try] of iteration [i]. *)
Definition send_events (w : world) (topic : string) (i : nat) (value : pyval) : list event :=
  EvSend topic value ::
  match value_serializer value with
  | inl e => handler_events e
  | inr _ =>
      match send_outcome w i with
      | Some e => handler_events e
      | None =>
          EvGet 10 ::
          match get_outcome w i with
          | inl e => handler_events e
          | inr r => [EvLog INFO (MsgSent r)]
          end
      end
  end.

(** The outcome of the inner [try] of iteration [i]. *)
Definition send_result (w : world) (i : nat) (value : pyval) : outcome unit :=
  match send_failure w i value with
  | Some e => if is_Exception e then Returns tt else Raises e
  | None => Returns tt
  end.

(** In iteration [i] the client raises nothing but exceptions of class
    Exception, and the wait runs to its end. *)
Definition iteration_continues (w : world) (i : nat) : Prop :=
  (forall e, send_outcome w i = Some e -> is_Exception e = true) /\
  (forall e, get_outcome w i = inl e -> is_Exception e = true) /\
  sleep_outcome w i = None.

(** Events that are neither a send, a close, a client construction nor a
    warning. *)
Definition quiet (ev : event) : bool :=
  match ev with
  | EvGet _ | EvSleep _ => true
  | EvLog INFO _ | EvLog ERROR _ => true
  | _ => false
  end.

(** ** Reading start-up *)

(** The optional cloud-auth variables. *)
Definition azure_vars : list string :=
  ["AZURE_TENANT_ID"; "AZURE_CLIENT_ID"; "AZURE_CLIENT_SECRET"; "AZURE_FHIR_URL";
   "AZURE_SCOPE"].

(** The world [w] run under the environment [env]. *)
Definition with_environ (env : gmap string string) (w : world) : world :=
  {| environ := env;
     directory := directory w;
     connect_outcome := connect_outcome w;
     retry_sleep_outcome := retry_sleep_outcome w;
     send_outcome := send_outcome w;
     get_outcome := get_outcome w;
     sleep_outcome := sleep_outcome w;
     close_outcome := close_outcome w |}.

(** The two log records that show a cloud-auth variable. *)
Definition is_azure_log (ev : event) : bool :=
  match ev with
  | EvLog _ (MsgAzureUrl _) | EvLog _ (MsgAzureTenant _) => true
  | _ => false
  end.

Definition without_azure_logs (tr : list event) : list event :=
  List.filter (fun ev => negb (is_azure_log ev)) tr.

(** The five records [main] logs first. *)
Definition startup_logs (w : world) (send_interval : Z) : list event :=
  [EvLog INFO (MsgStarting (os_getenv w "KAFKA_TOPIC" "fhir-resources"));
   EvLog INFO (MsgSamplesPath (os_getenv w "FHIR_SAMPLES_PATH" "/app/samples"));
   EvLog INFO (MsgSendInterval send_interval);
   EvLog INFO (MsgAzureUrl (os_getenv_opt w "AZURE_FHIR_URL"));
   EvLog INFO (MsgAzureTenant (os_getenv_opt w "AZURE_TENANT_ID"))].

(** Start-up from the call of [create_producer] on. *)
Definition startup_tail (json_accepts : string -> bool) (w : world) (send_interval : Z)
    : M (option producer * string * Z * list pyval) :=
  p ← create_producer w;
  fhir_samples ← load_fhir_samples json_accepts w (os_getenv w "FHIR_SAMPLES_PATH" "/app/samples");
  fhir_samples ← effective_samples fhir_samples;
  log INFO (MsgLoadedCount (length fhir_samples));;
  mret (p, os_getenv w "KAFKA_TOPIC" "fhir-resources", send_interval, fhir_samples).

(** ** Reading a run of iterations *)

(** What [k] iterations that all go on leave in the trace, counted from
    iteration [i] and cursor [c]: for each, the inner [try] on the selected
    sample and the wait. *)
Definition continued_iterations (w : world) (topic : string) (send_interval : Z)
    (samples : list pyval) (i c k : nat) : list event :=
  flat_map
    (fun j =>
       match select samples (c + j) with
       | Some v => send_events w topic (i + j) v ++ [EvSleep send_interval]
       | None => []
       end)
    (seq 0 k).

(** What one iteration over an empty sample list leaves in the trace. *)
Definition idle_iteration (send_interval : Z) : list event :=
  [EvLog WARNING MsgNoSamplesAvailable; EvSleep send_interval].

(** ** The key serializer handed to the client *)

(** [lambda x: x.encode('utf-8') if x else None], on a key that is a text or
    None. *)
Definition key_serializer (x : option string) : option (list ascii) :=
  match x with
  | Some s => if truthy s then Some (utf8_encode s) else None
  | None => None
  end.

(** ** Concrete worlds *)

Module Examples.

(** A broker that answers on the [n]-th attempt (counted from 0): the
    attempts before it end in the client's NoBrokersAvailable error.  No
    sample directory, every send acknowledged, no interrupt. *)
Definition quiet_world (n : nat) : world :=
  {| environ := ∅;
     directory := fun _ => None;
     connect_outcome := fun k =>
       if (k <? n)%nat then Some (KafkaError "NoBrokersAvailable") else None;
     retry_sleep_outcome := fun _ => None;
     send_outcome := fun _ => None;
     get_outcome := fun i =>
       inr {| rm_topic := "fhir-resources"; rm_partition := 0; rm_offset := Z.of_nat i |};
     sleep_outcome := fun _ => None;
     close_outcome := None |}.

(** The quiet world with a samples directory at the default path. *)
Definition dir_world (entries : list dirent) : world :=
  {| environ := ∅;
     directory := fun p => if String.eqb p "/app/samples" then Some entries else None;
     connect_outcome := fun _ => None;
     retry_sleep_outcome := fun _ => None;
     send_outcome := fun _ => None;
     get_outcome := fun i =>
       inr {| rm_topic := "fhir-resources"; rm_partition := 0; rm_offset := Z.of_nat i |};
     sleep_outcome := fun _ => None;
     close_outcome := None |}.


Definition newline : string := String "010"%char EmptyString.

(** a.json: the Patient resource on one line, ended by a line feed. *)
Definition a_json : dirent :=
  {| d_name := "a.json"; d_read := ReadText (json_dumps sample_patient +:+ newline) |}.

(** b.json: an empty file. *)
Definition b_json : dirent :=
  {| d_name := "b.json"; d_read := ReadText EmptyString |}.

(** c.json: an object that is never closed. *)
Definition c_json : dirent :=
  {| d_name := "c.json"; d_read := ReadText "{" |}.

(** d.json: a directory, which [open] refuses. *)
Definition d_json : dirent :=
  {| d_name := "d.json"; d_read := ReadOSError "Is a directory" |}.

(** notes.txt: valid JSON under a name the pattern does not match. *)
Definition notes_txt : dirent :=
  {| d_name := "notes.txt"; d_read := ReadText "{}" |}.

(** e.json: an empty object followed by a line feed. *)
Definition e_json : dirent :=
  {| d_name := "e.json"; d_read := ReadText ("{}" +:+ newline) |}.

(** The quiet world where the wait of iteration [k] of the send loop is cut
    short by the operator's interrupt. *)
Definition interrupted_world (k : nat) : world :=
  {| environ := ∅;
     directory := fun _ => None;
     connect_outcome := fun _ => None;
     retry_sleep_outcome := fun _ => None;
     send_outcome := fun _ => None;
     get_outcome := fun i =>
       inr {| rm_topic := "fhir-resources"; rm_partition := 0; rm_offset := Z.of_nat i |};
     sleep_outcome := fun i => if (i =? k)%nat then Some KeyboardInterrupt else None;
     close_outcome := None |}.


Definition a_producer : producer :=
  Producer {| bootstrap_servers := "localhost:9092"; acks := "all";
              retries := 3; retry_backoff_ms := 1000 |}.

(** A broker that is down, and an operator who interrupts connection
    attempt [k]. *)
Definition interrupted_connect (k : nat) : world :=
  {| environ := ∅;
     directory := fun _ => None;
     connect_outcome := fun j =>
       if (j <? k)%nat then Some (KafkaError "NoBrokersAvailable")
       else Some KeyboardInterrupt;
     retry_sleep_outcome := fun _ => None;
     send_outcome := fun _ => None;
     get_outcome := fun i =>
       inr {| rm_topic := "fhir-resources"; rm_partition := 0; rm_offset := Z.of_nat i |};
     sleep_outcome := fun _ => None;
     close_outcome := None |}.

(** A broker that is down, and an operator who interrupts the wait after
    connection attempt [k]. *)
Definition interrupted_retry_wait (k : nat) : world :=
  {| environ := ∅;
     directory := fun _ => None;
     connect_outcome := fun _ => Some (KafkaError "NoBrokersAvailable");
     retry_sleep_outcome := fun j => if (j =? k)%nat then Some KeyboardInterrupt else None;
     send_outcome := fun _ => None;
     get_outcome := fun i =>
       inr {| rm_topic := "fhir-resources"; rm_partition := 0; rm_offset := Z.of_nat i |};
     sleep_outcome := fun _ => None;
     close_outcome := None |}.

(** The quiet world under an environment of its own. *)
Definition env_world (env : gmap string string) : world :=
  with_environ env (quiet_world 0).

(** The quiet world where the wait for the acknowledgement of iteration [k]
    is cut short by the operator's interrupt. *)
Definition interrupted_get (k : nat) : world :=
  {| environ := ∅;
     directory := fun _ => None;
     connect_outcome := fun _ => None;
     retry_sleep_outcome := fun _ => None;
     send_outcome := fun _ => None;
     get_outcome := fun i =>
       if (i =? k)%nat then inl KeyboardInterrupt
       else inr {| rm_topic := "fhir-resources"; rm_partition := 0; rm_offset := Z.of_nat i |};
     sleep_outcome := fun _ => None;
     close_outcome := None |}.

(** The world interrupted in the wait of iteration [k], where closing the
    connection fails. *)
Definition failing_close (k : nat) : world :=
  {| environ := ∅;
     directory := fun _ => None;
     connect_outcome := fun _ => None;
     retry_sleep_outcome := fun _ => None;
     send_outcome := fun _ => None;
     get_outcome := fun i =>
       inr {| rm_topic := "fhir-resources"; rm_partition := 0; rm_offset := Z.of_nat i |};
     sleep_outcome := fun i => if (i =? k)%nat then Some KeyboardInterrupt else None;
     close_outcome := Some (KafkaError "KafkaTimeoutError") |}.

End Examples.

(** * Properties *)

(** Case analysis on the innermost scrutinee the goal is stuck on. *)
Ltac case_scrutinee :=
  match goal with
  | |- context [match ?x with _ => _ end] =>
      lazymatch x with
      | context [match _ with _ => _ end] => fail
      | _ => destruct x eqn:?
      end
  end.

Ltac crunch := repeat (cbn in *; try done; case_scrutinee); cbn in *; try done.

(** ** Monad equations *)

Lemma bind_returns {A B} (tr : list event) (a : A) (f : A -> M B) :
  mbind f ((tr, Returns a) : M A) = (tr ++ fst (f a), snd (f a)).
Proof. reflexivity. Qed.

Lemma bind_raises {A B} (tr : list event) (e : exn) (f : A -> M B) :
  mbind f ((tr, Raises e) : M A) = (tr, Raises e).
Proof. reflexivity. Qed.

Lemma bind_running {A B} (tr : list event) (f : A -> M B) :
  mbind f ((tr, Running) : M A) = (tr, Running).
Proof. reflexivity. Qed.

Lemma bind_result_returns {A B} (m : M A) (f : A -> M B) (b : B) :
  result (m ≫= f) = Returns b ->
  exists a, result m = Returns a /\ result (f a) = Returns b.
Proof.
  destruct m as [tr [a|e|]]; unfold result, mbind, M_bind; cbn; try done.
  intros H. by exists a.
Qed.

Lemma bind_trace {A B} (m : M A) (f : A -> M B) :
  trace (m ≫= f)
  = trace m ++ match result m with Returns a => trace (f a) | _ => [] end.
Proof.
  destruct m as [tr [a|e|]]; unfold trace, result, mbind, M_bind; cbn;
    by rewrite ?app_nil_r.
Qed.

Lemma bind_result {A B} (m : M A) (f : A -> M B) :
  result (m ≫= f)
  = match result m with
    | Returns a => result (f a)
    | Raises e => Raises e
    | Running => Running
    end.
Proof. by destruct m as [tr [a|e|]]. Qed.

Lemma closes_app tr1 tr2 : closes (tr1 ++ tr2) = (closes tr1 + closes tr2)%nat.
Proof. unfold closes. by rewrite List.filter_app, length_app. Qed.

Lemma sends_app tr1 tr2 : sends (tr1 ++ tr2) = sends tr1 ++ sends tr2.
Proof. apply omap_app. Qed.

Lemma time_sleep_eq o secs :
  time_sleep o secs
  = if secs <? 0 then ([], Raises (ValueError "sleep length must be non-negative"))
    else ([EvSleep secs], match o with None => Returns tt | Some e => Raises e end).
Proof. unfold time_sleep. destruct (secs <? 0); [done|]. by destruct o. Qed.

(** ** The connection retry loop *)

Section Connect.
Variable w : world.

Lemma attempt_connected attempt :
  connect_outcome w attempt = None ->
  create_producer_attempt w attempt
  = ([EvConnect (client_config w); EvLog INFO MsgConnected],
     Returns (Some (Producer (client_config w)))).
Proof.
  intros H. unfold create_producer_attempt, KafkaProducer.
  rewrite H. reflexivity.
Qed.

Lemma attempt_retried attempt e :
  connect_outcome w attempt = Some e ->
  is_Exception e = true ->
  (attempt < max_retries - 1)%nat ->
  retry_sleep_outcome w attempt = None ->
  create_producer_attempt w attempt = (failed_attempt w attempt, Returns None).
Proof.
  intros H He Hlt Hs. unfold create_producer_attempt, KafkaProducer, failed_attempt.
  rewrite H. unfold try_except. cbn. rewrite He.
  apply Nat.ltb_lt in Hlt. cbn in Hlt. rewrite Hlt, Hs. reflexivity.
Qed.

Lemma attempt_gave_up attempt e :
  connect_outcome w attempt = Some e ->
  is_Exception e = true ->
  (max_retries - 1 <= attempt)%nat ->
  create_producer_attempt w attempt
  = ([EvConnect (client_config w);
      EvLog WARNING (MsgAttemptFailed (attempt + 1) max_retries e)],
     Raises e).
Proof.
  intros H He Hge. unfold create_producer_attempt, KafkaProducer.
  rewrite H. unfold try_except. cbn. rewrite He.
  apply Nat.ltb_ge in Hge. cbn in Hge. rewrite Hge. reflexivity.
Qed.

(** Attempts [a], [a+1], ... of the loop when the first [k] of them fail and
    the next one connects. *)
Lemma for_first_success k : forall n a,
  (a + n = max_retries)%nat ->
  (k < n)%nat ->
  (forall j, (a <= j < a + k)%nat ->
     exists e, connect_outcome w j = Some e /\ is_Exception e = true) ->
  (forall j, retry_sleep_outcome w j = None) ->
  connect_outcome w (a + k) = None ->
  create_producer_for w (seq a n)
  = (flat_map (failed_attempt w) (seq a k)
       ++ [EvConnect (client_config w); EvLog INFO MsgConnected],
     Returns (Some (Producer (client_config w)))).
Proof.
  induction k as [|k IH]; intros n a Han Hk Hfail Hsleep Hok.
  - destruct n as [|n]; [lia|]. cbn [seq create_producer_for flat_map].
    rewrite Nat.add_0_r in Hok. rewrite (attempt_connected _ Hok). reflexivity.
  - destruct n as [|n]; [lia|]. cbn [seq create_producer_for flat_map].
    destruct (Hfail a ltac:(lia)) as (e & He & Hex).
    rewrite (attempt_retried a e He Hex); [|unfold max_retries in *; lia|apply Hsleep].
    rewrite bind_returns.
    rewrite (IH n (S a)); try lia; try done.
    + cbn [fst snd]. by rewrite app_assoc.
    + intros j Hj. apply Hfail. lia.
    + by replace (S a + k)%nat with (a + S k)%nat by lia.
Qed.

(** Attempts [a], [a+1], ... of the loop when all of them fail. *)
Lemma for_all_failed n : forall a,
  (a + S n = max_retries)%nat ->
  (forall j, (a <= j < max_retries)%nat ->
     exists e, connect_outcome w j = Some e /\ is_Exception e = true) ->
  (forall j, retry_sleep_outcome w j = None) ->
  exists e,
    connect_outcome w (max_retries - 1) = Some e /\
    create_producer_for w (seq a (S n))
    = (flat_map (failed_attempt w) (seq a n)
         ++ [EvConnect (client_config w);
             EvLog WARNING (MsgAttemptFailed max_retries max_retries e)],
       Raises e).
Proof.
  induction n as [|n IH]; intros a Han Hfail Hsleep.
  - destruct (Hfail a ltac:(lia)) as (e & He & Hex).
    assert (a = max_retries - 1)%nat as Ha by lia.
    exists e. split; [by rewrite <- Ha|].
    cbn [seq create_producer_for flat_map].
    rewrite (attempt_gave_up a e He Hex) by lia.
    rewrite bind_raises. subst a. reflexivity.
  - destruct (Hfail a ltac:(lia)) as (e & He & Hex).
    destruct (IH (S a)) as (e' & He' & Hrun); [lia| |done|].
    { intros j Hj. apply Hfail. lia. }
    exists e'. split; [done|].
    change (seq a (S (S n))) with (a :: seq (S a) (S n)).
    cbn [create_producer_for].
    rewrite (attempt_retried a e He Hex); [|unfold max_retries in *; lia|apply Hsleep].
    rewrite bind_returns, Hrun. cbn [fst snd seq flat_map].
    by rewrite app_assoc.
Qed.

(** A run of failed attempts: one client call and one wait of [retry_delay]
    seconds each. *)
Lemma failed_attempts_counts k : forall a,
  (forall j, (a <= j < a + k)%nat -> connect_outcome w j <> None) ->
  attempts_made (flat_map (failed_attempt w) (seq a k)) = k /\
  sleeps (flat_map (failed_attempt w) (seq a k)) = replicate k retry_delay.
Proof.
  induction k as [|k IH]; intros a Hfail; [done|].
  cbn [seq flat_map]. unfold attempts_made, sleeps in *.
  rewrite List.filter_app, length_app, omap_app.
  destruct (IH (S a)) as [IH1 IH2]; [intros j Hj; apply Hfail; lia|].
  rewrite IH1, IH2. unfold failed_attempt.
  destruct (connect_outcome w a) as [e|] eqn:He; [done|].
  exfalso. by apply (Hfail a ltac:(lia)).
Qed.

End Connect.

(** ** The sample loader *)

Section Loader.
Variable json_accepts : string -> bool.

Lemma load_one_eq samples d :
  load_one json_accepts samples d
  = (load_events json_accepts d,
     Returns (samples ++ option_list (VStr <$> accepted_text json_accepts d))).
Proof.
  unfold load_one, load_events, accepted_text, load_error, open_read, json_loads.
  destruct (d_read d) as [text|msg|msg]; cbn.
  - destruct (truthy (strip text)); cbn; [|by rewrite app_nil_r].
    destruct (json_accepts (strip text)); cbn; [done|by rewrite app_nil_r].
  - by rewrite app_nil_r.
  - by rewrite app_nil_r.
Qed.

Lemma load_all_eq files : forall samples,
  load_all json_accepts samples files
  = (flat_map (load_events json_accepts) files,
     Returns (samples ++ omap (fun d => VStr <$> accepted_text json_accepts d) files)).
Proof.
  induction files as [|d files IH]; intros samples; cbn [load_all flat_map omap].
  - by rewrite app_nil_r.
  - rewrite load_one_eq, bind_returns, IH. cbn [fst snd].
    rewrite <- app_assoc. do 2 f_equal. f_equal.
    simpl. by destruct (accepted_text json_accepts d).
Qed.

Lemma load_fhir_samples_present w path entries :
  directory w path = Some entries ->
  load_fhir_samples json_accepts w path
  = (flat_map (load_events json_accepts) (json_files entries),
     Returns (loaded_from json_accepts entries)).
Proof.
  intros H. unfold load_fhir_samples. rewrite H. apply load_all_eq.
Qed.

Lemma load_fhir_samples_missing w path :
  directory w path = None ->
  load_fhir_samples json_accepts w path
  = ([EvLog WARNING (MsgNoSamplesDir path)], Returns []).
Proof. intros H. unfold load_fhir_samples. by rewrite H. Qed.

Lemma load_fhir_samples_exists_raises w path msg :
  directory w path = ExistsRaises msg ->
  load_fhir_samples json_accepts w path = ([], Raises (OSError msg)).
Proof. intros H. unfold load_fhir_samples. by rewrite H. Qed.

Lemma load_fhir_samples_listing_raises w path msg :
  directory w path = ListingRaises msg ->
  load_fhir_samples json_accepts w path = ([], Raises (OSError msg)).
Proof. intros H. unfold load_fhir_samples. by rewrite H. Qed.

(** Every loaded sample is a text. *)
Lemma load_fhir_samples_texts w path loaded :
  result (load_fhir_samples json_accepts w path) = Returns loaded ->
  Forall (fun v => exists s, v = VStr s) loaded.
Proof.
  destruct (directory w path) as [[entries|]|msg|msg] eqn:Hd.
  - rewrite (load_fhir_samples_present _ _ _ Hd). intros [= <-].
    apply Forall_forall. unfold loaded_from. intros v (d & _ & Hv)%list_elem_of_omap.
    destruct (accepted_text json_accepts d) as [s|]; [|done].
    exists s. by injection Hv.
  - rewrite (load_fhir_samples_missing _ _ Hd). by intros [= <-].
  - by rewrite (load_fhir_samples_exists_raises _ _ _ Hd).
  - by rewrite (load_fhir_samples_listing_raises _ _ _ Hd).
Qed.

Lemma loaded_from_app l1 l2 :
  loaded_from json_accepts (l1 ++ l2)
  = loaded_from json_accepts l1 ++ loaded_from json_accepts l2.
Proof. unfold loaded_from, json_files. by rewrite List.filter_app, omap_app. Qed.

Lemma loaded_from_length entries :
  length (loaded_from json_accepts entries)
  = length (List.filter (is_valid_sample json_accepts) (json_files entries)).
Proof.
  unfold loaded_from. induction (json_files entries) as [|d l IH]; [done|].
  cbn. unfold accepted_text, is_valid_sample at 1.
  destruct (d_read d) as [text| |]; try done.
  destruct (truthy (strip text) && json_accepts (strip text)); cbn; [f_equal|]; exact IH.
Qed.

Lemma logged_app lvl tr1 tr2 : logged lvl (tr1 ++ tr2) = logged lvl tr1 ++ logged lvl tr2.
Proof. apply omap_app. Qed.

(** The error records of the loader: one per entry that raises. *)
Lemma load_errors_logged l :
  logged ERROR (flat_map (load_events json_accepts) l)
  = omap (fun d => MsgErrorLoading (d_name d) <$> load_error json_accepts d) l.
Proof.
  induction l as [|d l IH]; [done|].
  cbn [flat_map]. rewrite logged_app, IH. simpl.
  unfold load_events, accepted_text, load_error.
  destruct (d_read d) as [text| |]; try done.
  destruct (truthy (strip text)); [|done].
  by destruct (json_accepts (strip text)).
Qed.

End Loader.

(** C1.  Whatever way the client's connection attempts fail (with exceptions
    of class Exception, the waits between attempts running to their end):
    when attempt number [k] < 10 is the first to connect, [create_producer]
    returns that connection after exactly [k + 1] client calls and [k] waits
    of 5 seconds each, one after every failed call; when all of the first 10
    attempts fail, it raises the exception of the 10th attempt after exactly
    10 client calls and 9 waits of 5 seconds, with no wait after the last
    failure. *)
Theorem create_producer_retries (w : world) :
  (forall k e, connect_outcome w k = Some e -> is_Exception e = true) ->
  (forall k, retry_sleep_outcome w k = None) ->
  (forall k, (k < 10)%nat ->
     (forall j, (j < k)%nat -> connect_outcome w j <> None) ->
     connect_outcome w k = None ->
     result (create_producer w) = Returns (Some (Producer (client_config w))) /\
     attempts_made (trace (create_producer w)) = S k /\
     sleeps (trace (create_producer w)) = replicate k 5 /\
     trace (create_producer w)
     = flat_map (failed_attempt w) (seq 0 k)
         ++ [EvConnect (client_config w); EvLog INFO MsgConnected])
  /\
  ((forall j, (j < 10)%nat -> connect_outcome w j <> None) ->
   exists e,
     connect_outcome w 9 = Some e /\
     result (create_producer w) = Raises e /\
     attempts_made (trace (create_producer w)) = 10%nat /\
     sleeps (trace (create_producer w)) = replicate 9 5 /\
     trace (create_producer w)
     = flat_map (failed_attempt w) (seq 0 9)
         ++ [EvConnect (client_config w); EvLog WARNING (MsgAttemptFailed 10 10 e)]).
Proof.
  intros Hexn Hsleep. split.
  - intros k Hk Hfail Hok.
    assert (create_producer w
            = (flat_map (failed_attempt w) (seq 0 k)
                 ++ [EvConnect (client_config w); EvLog INFO MsgConnected],
               Returns (Some (Producer (client_config w))))) as Hrun.
    { unfold create_producer. apply for_first_success; try done.
      intros j Hj. destruct (connect_outcome w j) as [e|] eqn:He.
      - exists e. eauto.
      - exfalso. apply (Hfail j); [lia|done]. }
    rewrite Hrun. unfold trace, result. cbn [fst snd].
    destruct (failed_attempts_counts w k 0%nat) as [Hc Hs].
    { intros j Hj. apply Hfail. lia. }
    repeat split.
    + unfold attempts_made in *. rewrite List.filter_app, length_app, Hc. cbn. lia.
    + unfold sleeps in *. rewrite omap_app, Hs. cbn. by rewrite app_nil_r.
  - intros Hfail.
    destruct (for_all_failed w 9 0%nat) as (e & He & Hrun); try done.
    { intros j Hj. destruct (connect_outcome w j) as [e|] eqn:He.
      - exists e. eauto.
      - exfalso. apply (Hfail j); [unfold max_retries in Hj; lia|done]. }
    exists e. split; [exact He|].
    unfold create_producer. change (seq 0 max_retries) with (seq 0 10).
    rewrite Hrun. unfold trace, result. cbn [fst snd].
    destruct (failed_attempts_counts w 9 0%nat) as [Hc Hs].
    { intros j Hj. apply Hfail. lia. }
    repeat split.
    + unfold attempts_made in *. rewrite List.filter_app, length_app, Hc. cbn. lia.
    + unfold sleeps in *. by rewrite omap_app, Hs.
Qed.

(** The theorem at a broker that answers on the fourth attempt. *)
Lemma create_producer_retries_witness :
  result (create_producer (Examples.quiet_world 3))
  = Returns (Some (Producer (client_config (Examples.quiet_world 3)))) /\
  attempts_made (trace (create_producer (Examples.quiet_world 3))) = 4%nat /\
  sleeps (trace (create_producer (Examples.quiet_world 3))) = [5; 5; 5].
Proof.
  destruct (create_producer_retries (Examples.quiet_world 3)) as [Hfirst _].
  - intros k e H. unfold Examples.quiet_world in H. cbn [connect_outcome] in H.
    destruct (k <? 3)%nat; by simplify_eq.
  - done.
  - destruct (Hfirst 3%nat) as (Hr & Ha & Hs & _).
    + lia.
    + intros j Hj. unfold Examples.quiet_world. cbn [connect_outcome].
      apply Nat.ltb_lt in Hj. by rewrite Hj.
    + done.
    + by rewrite Hr, Ha, Hs.
Defined.

(** C2, as stated, fails: a file holding an empty JSON object and a final
    line feed is valid, and the element appended for it is the text without
    the line feed, not the text of the file. *)
Lemma load_raw_text_counterexample :
  glob_json Examples.e_json = true /\
  d_read Examples.e_json = ReadText ("{}" +:+ Examples.newline) /\
  is_valid_sample Ref.json_accepts Examples.e_json = true /\
  load_one Ref.json_accepts [] Examples.e_json
  = ([EvLog INFO (MsgLoadedSample "e.json")], Returns [VStr "{}"]) /\
  result (load_fhir_samples Ref.json_accepts (Examples.dir_world [Examples.e_json])
            "/app/samples")
  = Returns [VStr "{}"] /\
  VStr "{}" <> VStr ("{}" +:+ Examples.newline).
Proof. repeat split; try reflexivity. discriminate. Qed.

(** C2, amended.  For every .json file of the samples directory whose text
    is non-empty after trimming and is accepted by [json.loads] in its
    trimmed form, the element the loader appends is the trimmed text of the
    file, as a text (never the parsed structure); it is in the list the
    loader returns. *)
Theorem load_appends_trimmed_text (json_accepts : string -> bool) (w : world)
    (path : string) (entries : list dirent) (d : dirent) (text : string) :
  directory w path = Some entries ->
  d ∈ entries ->
  glob_json d = true ->
  d_read d = ReadText text ->
  truthy (strip text) = true ->
  json_accepts (strip text) = true ->
  (forall samples,
     result (load_one json_accepts samples d) = Returns (samples ++ [VStr (strip text)])) /\
  (exists loaded,
     result (load_fhir_samples json_accepts w path) = Returns loaded /\
     VStr (strip text) ∈ loaded).
Proof.
  intros Hdir Hin Hglob Hread Hne Hok.
  assert (accepted_text json_accepts d = Some (strip text)) as Hacc.
  { unfold accepted_text. by rewrite Hread, Hne, Hok. }
  split.
  - intros samples. rewrite load_one_eq. unfold result. cbn [snd]. by rewrite Hacc.
  - exists (loaded_from json_accepts entries). split.
    + by rewrite (load_fhir_samples_present _ _ _ _ Hdir).
    + unfold loaded_from. apply list_elem_of_omap. exists d. split.
      * unfold json_files. apply list_elem_of_In, List.filter_In.
        split; [by apply list_elem_of_In|done].
      * by rewrite Hacc.
Qed.

(** The theorem at a directory holding a.json (the Patient resource and a
    line feed) and the empty b.json. *)
Lemma load_appends_trimmed_text_witness :
  (forall samples,
     result (load_one Ref.json_accepts samples Examples.a_json)
     = Returns (samples ++ [VStr (json_dumps sample_patient)])) /\
  (exists loaded,
     result (load_fhir_samples Ref.json_accepts
               (Examples.dir_world [Examples.a_json; Examples.b_json]) "/app/samples")
     = Returns loaded /\
     VStr (json_dumps sample_patient) ∈ loaded).
Proof.
  apply (load_appends_trimmed_text Ref.json_accepts
           (Examples.dir_world [Examples.a_json; Examples.b_json]) "/app/samples"
           [Examples.a_json; Examples.b_json] Examples.a_json
           (json_dumps sample_patient +:+ Examples.newline)).
  - reflexivity.
  - apply list_elem_of_here.
  - reflexivity.
  - reflexivity.
  - vm_compute. reflexivity.
  - vm_compute. reflexivity.
Defined.




(** ** Start-up *)

Section Startup.
Variable json_accepts : string -> bool.
Variable int_of_str : string -> option Z.
Variable w : world.

Lemma effective_samples_returns loaded :
  result (effective_samples loaded)
  = Returns (match loaded with
             | [] => map (fun sample => VStr (json_dumps sample)) generate_sample_fhir_resources
             | _ => loaded
             end).
Proof. by destruct loaded. Qed.

Lemma startup_split :
  startup json_accepts int_of_str w
  = match int_of_str (os_getenv w "SEND_INTERVAL_SECONDS" "10") with
    | None => ([], Raises (ValueError (os_getenv w "SEND_INTERVAL_SECONDS" "10")))
    | Some n =>
        (startup_logs w n ++ trace (startup_tail json_accepts w n),
         result (startup_tail json_accepts w n))
    end.
Proof.
  unfold startup, py_int.
  destruct (int_of_str (os_getenv w "SEND_INTERVAL_SECONDS" "10")) as [n|]; reflexivity.
Qed.

(** No attempt to connect hands a record to the client. *)
Lemma create_producer_attempt_sends attempt :
  sends (trace (create_producer_attempt w attempt)) = [].
Proof.
  unfold create_producer_attempt, KafkaProducer, try_except, sends. crunch.
Qed.

Lemma create_producer_for_sends attempts :
  sends (trace (create_producer_for w attempts)) = [].
Proof.
  induction attempts as [|a attempts IH]; [done|].
  cbn [create_producer_for]. rewrite bind_trace, sends_app, create_producer_attempt_sends.
  destruct (result (create_producer_attempt w a)) as [[p|]| |]; done.
Qed.

(** An attempt goes on to the next one only before the last. *)
Lemma create_producer_attempt_None attempt :
  result (create_producer_attempt w attempt) = Returns None ->
  (attempt < max_retries - 1)%nat.
Proof.
  unfold create_producer_attempt, KafkaProducer, try_except. crunch.
  intros _.
  match goal with H : (_ <=? _)%nat = true |- _ => apply Nat.leb_le in H end. lia.
Qed.

(** The loop of [create_producer] never runs out: it returns a connection or
    raises. *)
Lemma create_producer_for_Some n : forall a,
  (a + S n = max_retries)%nat ->
  result (create_producer_for w (seq a (S n))) <> Returns None.
Proof.
  induction n as [|n IH]; intros a Ha.
  - cbn [seq create_producer_for]. rewrite bind_result.
    destruct (result (create_producer_attempt w a)) as [[p|]| |] eqn:Hr; try done.
    apply create_producer_attempt_None in Hr. lia.
  - change (seq a (S (S n))) with (a :: seq (S a) (S n)).
    cbn [create_producer_for]. rewrite bind_result.
    destruct (result (create_producer_attempt w a)) as [[p|]| |] eqn:Hr; try done.
    apply IH. lia.
Qed.

Lemma create_producer_Some : result (create_producer w) <> Returns None.
Proof. apply (create_producer_for_Some 9 0%nat). reflexivity. Qed.

Lemma load_fhir_samples_sends path :
  sends (trace (load_fhir_samples json_accepts w path)) = [].
Proof.
  destruct (directory w path) as [[entries|]|msg|msg] eqn:Hd.
  - rewrite (load_fhir_samples_present _ _ _ _ Hd). unfold trace. cbn [fst].
    induction (json_files entries) as [|d l IH]; [done|].
    cbn [flat_map]. rewrite sends_app, IH, app_nil_r. unfold load_events.
    destruct (accepted_text json_accepts d); [done|].
    by destruct (load_error json_accepts d).
  - by rewrite (load_fhir_samples_missing _ _ _ Hd).
  - by rewrite (load_fhir_samples_exists_raises _ _ _ _ Hd).
  - by rewrite (load_fhir_samples_listing_raises _ _ _ _ Hd).
Qed.

(** Start-up hands nothing to the client. *)
Lemma startup_sends : sends (trace (startup json_accepts int_of_str w)) = [].
Proof.
  rewrite startup_split.
  destruct (int_of_str (os_getenv w "SEND_INTERVAL_SECONDS" "10")) as [n|]; [|done].
  unfold trace at 1. cbn [fst]. rewrite sends_app.
  replace (sends (startup_logs w n)) with (@nil (string * pyval)) by done.
  unfold startup_tail. rewrite bind_trace, sends_app.
  unfold create_producer at 1. rewrite create_producer_for_sends.
  destruct (result (create_producer w)) as [p| |]; [|done..].
  rewrite bind_trace, sends_app, load_fhir_samples_sends.
  destruct (result (load_fhir_samples json_accepts w _)) as [loaded| |]; [|done..].
  by destruct loaded.
Qed.

(** What a start-up that reaches the send loop has done. *)
Lemma startup_returns p topic send_interval fhir_samples :
  result (startup json_accepts int_of_str w)
  = Returns (p, topic, send_interval, fhir_samples) ->
  topic = os_getenv w "KAFKA_TOPIC" "fhir-resources" /\
  int_of_str (os_getenv w "SEND_INTERVAL_SECONDS" "10") = Some send_interval /\
  result (create_producer w) = Returns p /\
  exists loaded,
    result (load_fhir_samples json_accepts w (os_getenv w "FHIR_SAMPLES_PATH" "/app/samples"))
    = Returns loaded /\
    result (effective_samples loaded) = Returns fhir_samples.
Proof.
  unfold startup, py_int. intros H.
  apply bind_result_returns in H as (n & Hn & H).
  destruct (int_of_str _) as [n'|] eqn:Hint; [|done].
  injection Hn as ->.
  do 5 (apply bind_result_returns in H as (? & _ & H)).
  apply bind_result_returns in H as (p' & Hp & H).
  apply bind_result_returns in H as (loaded & Hl & H).
  apply bind_result_returns in H as (samples & Hs & H).
  apply bind_result_returns in H as (? & _ & H).
  injection H as -> -> -> ->. eauto 10.
Qed.

End Startup.

(** C4.  When the loader returns the empty list (directory missing, empty,
    or without a valid file), the list the send loop works on is the two
    built-in resources serialized by [json.dumps], the Patient first and the
    Observation second, with the field sets of the specification. *)
Theorem default_payloads_when_nothing_loaded (json_accepts : string -> bool)
    (int_of_str : string -> option Z) (w : world) :
  effective_samples [] = ([EvLog INFO MsgUsingGenerated], Returns default_payloads) /\
  (forall p topic send_interval fhir_samples,
     result (load_fhir_samples json_accepts w (os_getenv w "FHIR_SAMPLES_PATH" "/app/samples"))
     = Returns [] ->
     result (startup json_accepts int_of_str w)
     = Returns (p, topic, send_interval, fhir_samples) ->
     fhir_samples = default_payloads) /\
  default_payloads
  = [VStr (json_dumps sample_patient); VStr (json_dumps sample_observation)] /\
  json_field "resourceType" sample_patient = Some (JStr "Patient") /\
  json_keys sample_patient
  = ["resourceType"; "id"; "identifier"; "name"; "gender"; "birthDate"; "active"] /\
  json_field "resourceType" sample_observation = Some (JStr "Observation") /\
  json_keys sample_observation
  = ["resourceType"; "id"; "status"; "category"; "code"; "subject"; "valueQuantity"] /\
  json_keys <$> json_field "valueQuantity" sample_observation
  = Some ["value"; "unit"; "system"; "code"].
Proof.
  split; [reflexivity|]. split; [|repeat split; reflexivity].
  intros p topic send_interval fhir_samples Hload Hstart.
  apply startup_returns in Hstart as (_ & _ & _ & loaded & Hl & Hs).
  rewrite Hload in Hl. injection Hl as <-.
  rewrite effective_samples_returns in Hs. by injection Hs as <-.
Qed.

(** The theorem where the samples directory is missing: start-up reaches the
    loop with the two built-in payloads. *)
Lemma default_payloads_when_nothing_loaded_witness :
  result (startup Ref.json_accepts Ref.int_of_str (Examples.quiet_world 0))
  = Returns (Some (Producer (client_config (Examples.quiet_world 0))),
             "fhir-resources", 10, default_payloads).
Proof.
  destruct (default_payloads_when_nothing_loaded Ref.json_accepts Ref.int_of_str
              (Examples.quiet_world 0)) as (_ & H & _).
  rewrite <- (H (Some (Producer (client_config (Examples.quiet_world 0))))
               "fhir-resources" 10
               [VStr (json_dumps sample_patient); VStr (json_dumps sample_observation)]).
  - vm_compute. reflexivity.
  - reflexivity.
  - vm_compute. reflexivity.
Defined.

(** ** The send loop *)

Section Loop.
Variable w : world.
Variable p0 : producer.
Variable topic : string.
Variable send_interval : Z.

Lemma handler_events_Exception e :
  is_Exception e = true -> exists m, handler_events e = [EvLog ERROR m].
Proof. intros H. unfold handler_events. rewrite H. destruct (is_KafkaError e); eauto. Qed.

Lemma send_attempt_eq i v :
  send_attempt w (Some p0) topic i v = (send_events w topic i v, send_result w i v).
Proof.
  assert (forall e, is_Exception e = false -> is_KafkaError e = false) as Hk.
  { by intros []. }
  unfold send_attempt, send_events, send_result, send_failure, producer_send,
    future_get, handler_events.
  destruct (value_serializer v) as [e|bytes]; cbn.
  { unfold try_except. cbn.
    destruct (is_Exception e) eqn:He; [by destruct (is_KafkaError e)|].
    by rewrite (Hk e He). }
  destruct (send_outcome w i) as [e|]; cbn.
  { unfold try_except. cbn.
    destruct (is_Exception e) eqn:He; [by destruct (is_KafkaError e)|].
    by rewrite (Hk e He). }
  destruct (get_outcome w i) as [e|r]; cbn; [|done].
  unfold try_except. cbn.
  destruct (is_Exception e) eqn:He; [by destruct (is_KafkaError e)|].
  by rewrite (Hk e He).
Qed.

Lemma select_is_Some samples i : samples <> [] -> is_Some (select samples i).
Proof.
  intros Hne. apply lookup_lt_is_Some, Nat.mod_upper_bound.
  by destruct samples.
Qed.

Lemma select_periodic samples i : select samples i = select samples (i + length samples).
Proof.
  unfold select. f_equal.
  rewrite <- (Nat.Div0.mod_add i 1 (length samples)). f_equal. lia.
Qed.

(** One iteration over a non-empty list: the inner [try] on the selected
    sample, then the wait, then the cursor moved by one. *)
Lemma loop_body_eq samples i c v :
  select samples c = Some v ->
  loop_body w (Some p0) topic send_interval samples i c
  = (((send_events w topic i v, send_result w i v) : M unit);;
     time_sleep (sleep_outcome w i) send_interval;;
     mret (S c)).
Proof.
  intros Hv. unfold loop_body. destruct samples as [|v0 rest]; [done|].
  unfold select in Hv. rewrite Hv. by rewrite send_attempt_eq.
Qed.

Lemma quiet_trace tr :
  forallb quiet tr = true ->
  sends tr = [] /\ closes tr = 0%nat /\ logged WARNING tr = [].
Proof.
  induction tr as [|ev tr IH]; [done|].
  cbn [forallb]. intros [Hev Htr]%andb_true_iff.
  destruct (IH Htr) as (IH1 & IH2 & IH3).
  unfold sends, closes, logged in *.
  destruct ev as [|[] ?| | | |]; try done; cbn; by rewrite ?IH1, ?IH2, ?IH3.
Qed.

Lemma handler_events_quiet e : forallb quiet (handler_events e) = true.
Proof.
  unfold handler_events. destruct (is_KafkaError e); [done|].
  by destruct (is_Exception e).
Qed.

(** The inner [try] hands the record to the client once and does nothing
    else that counts. *)
Lemma send_events_shape i v :
  exists rest, send_events w topic i v = EvSend topic v :: rest /\
               forallb quiet rest = true.
Proof.
  unfold send_events. eexists. split; [done|].
  destruct (value_serializer v); [apply handler_events_quiet|].
  destruct (send_outcome w i); [apply handler_events_quiet|].
  cbn. destruct (get_outcome w i); [apply handler_events_quiet|done].
Qed.

Lemma handler_events_sleeps e : sleeps (handler_events e) = [].
Proof.
  unfold handler_events. destruct (is_KafkaError e); [done|].
  by destruct (is_Exception e).
Qed.

(** The inner [try] never waits. *)
Lemma send_events_sleeps i v : sleeps (send_events w topic i v) = [].
Proof.
  unfold send_events.
  destruct (value_serializer v); [apply handler_events_sleeps|].
  destruct (send_outcome w i); [apply handler_events_sleeps|].
  destruct (get_outcome w i); [apply handler_events_sleeps|done].
Qed.

Lemma serializer_raises_Exception v e :
  value_serializer v = inl e -> is_Exception e = true.
Proof. destruct v; cbn; by intros [= <-]. Qed.

Lemma send_failure_Exception i v e :
  iteration_continues w i -> send_failure w i v = Some e -> is_Exception e = true.
Proof.
  intros (Hs & Hg & _). unfold send_failure.
  destruct (value_serializer v) eqn:Hv.
  { intros [= <-]. by eapply serializer_raises_Exception. }
  destruct (send_outcome w i) eqn:Ho; [intros [= <-]; by apply Hs|].
  destruct (get_outcome w i) eqn:Hget; [intros [= <-]; by apply Hg|done].
Qed.

(** The shape of one iteration over a non-empty list. *)
Lemma loop_body_shape samples i c :
  samples <> [] ->
  exists v rest,
    select samples c = Some v /\
    trace (loop_body w (Some p0) topic send_interval samples i c) = EvSend topic v :: rest /\
    forallb quiet rest = true /\
    result (loop_body w (Some p0) topic send_interval samples i c) <> Running /\
    (forall c', result (loop_body w (Some p0) topic send_interval samples i c) = Returns c' ->
                c' = S c).
Proof.
  intros Hne. destruct (select_is_Some samples c Hne) as [v Hv].
  destruct (send_events_shape i v) as (rest & Hrest & Hq).
  rewrite (loop_body_eq _ _ _ _ Hv), time_sleep_eq, Hrest.
  exists v. destruct (send_result w i v) as [[]|e|] eqn:Hr.
  - destruct (send_interval <? 0).
    + exists rest. cbn. rewrite app_nil_r. repeat split; done.
    + exists (rest ++ [EvSleep send_interval]).
      assert (forallb quiet (rest ++ [EvSleep send_interval]) = true) as Hq'.
      { by rewrite forallb_app, Hq. }
      destruct (sleep_outcome w i); cbn; rewrite ?app_nil_r; repeat split; try done.
      by intros c' [= <-].
  - exists rest. cbn. repeat split; done.
  - unfold send_result in Hr. destruct (send_failure w i v) as [e|]; [|done].
    by destruct (is_Exception e).
Qed.

(** An iteration that continues: the send, the wait, the next cursor. *)
Lemma loop_body_continues samples i c v :
  select samples c = Some v ->
  (forall e, send_failure w i v = Some e -> is_Exception e = true) ->
  0 <= send_interval ->
  trace (loop_body w (Some p0) topic send_interval samples i c)
  = send_events w topic i v ++ [EvSleep send_interval] /\
  (sleep_outcome w i = None ->
   result (loop_body w (Some p0) topic send_interval samples i c) = Returns (S c)).
Proof.
  intros Hv Hex Hiv.
  rewrite (loop_body_eq _ _ _ _ Hv), time_sleep_eq.
  assert (send_result w i v = Returns tt) as ->.
  { unfold send_result. destruct (send_failure w i v) as [e|]; [|done].
    by rewrite (Hex e eq_refl). }
  destruct (Z.ltb_spec send_interval 0) as [?|_]; [lia|].
  destruct (sleep_outcome w i); cbn -[send_events]; by split.
Qed.

(** The loop from iteration [i] and cursor [c] on: it sends the samples the
    cursor selects, one per iteration, closes nothing, never warns, and
    never falls out of [while True] by itself. *)
Lemma while_true_shape samples fuel : forall i c,
  samples <> [] ->
  exists k, (k <= fuel)%nat /\
    sends (trace (while_true w (Some p0) topic send_interval samples fuel i c))
    = omap (fun j => pair topic <$> select samples j) (seq c k) /\
    closes (trace (while_true w (Some p0) topic send_interval samples fuel i c)) = 0%nat /\
    logged WARNING (trace (while_true w (Some p0) topic send_interval samples fuel i c)) = [] /\
    (result (while_true w (Some p0) topic send_interval samples fuel i c) = Running ->
     k = fuel) /\
    result (while_true w (Some p0) topic send_interval samples fuel i c) <> Returns tt.
Proof.
  induction fuel as [|fuel IH]; intros i c Hne.
  { exists 0%nat. by cbn. }
  destruct (loop_body_shape samples i c Hne) as (v & rest & Hv & Htr & Hq & Hrun & Hc).
  destruct (quiet_trace rest Hq) as (Hs1 & Hs2 & Hs3).
  cbn [while_true].
  destruct (loop_body w (Some p0) topic send_interval samples i c) as [tr [c'|e|]] eqn:Hbody;
    unfold trace, result in *; cbn [fst snd] in *; [|clear IH|done].
  - rewrite (Hc c' eq_refl). rewrite bind_returns. cbn [fst snd].
    destruct (IH (S i) (S c) Hne) as (k & Hk & IH1 & IH2 & IH3 & IH4 & IH5).
    exists (S k). split; [lia|].
    subst tr. unfold sends, closes, logged in *.
    rewrite omap_app, List.filter_app, length_app, omap_app.
    cbn [seq]. simpl omap at 3. rewrite Hv. cbn.
    rewrite Hs1, Hs2, Hs3, IH1, IH2, IH3.
    repeat split; try done. intros Hr. by rewrite (IH4 Hr).
  - rewrite bind_raises. cbn [fst snd]. exists 1%nat. split; [lia|].
    subst tr. unfold sends, closes, logged in *. cbn.
    rewrite Hv. cbn. rewrite Hs1, Hs2, Hs3. done.
Qed.

(** As long as the iterations continue, the loop goes on. *)
Lemma while_true_goes_on samples fuel : forall i c,
  samples <> [] ->
  0 <= send_interval ->
  (forall j, (i <= j < i + fuel)%nat -> iteration_continues w j) ->
  result (while_true w (Some p0) topic send_interval samples fuel i c) = Running /\
  sleeps (trace (while_true w (Some p0) topic send_interval samples fuel i c))
  = replicate fuel send_interval.
Proof.
  induction fuel as [|fuel IH]; intros i c Hne Hiv Hcont; [done|].
  destruct (select_is_Some samples c Hne) as [v Hv].
  destruct (loop_body_continues samples i c v Hv) as [Htr Hres]; [|done|].
  { intros e. apply send_failure_Exception, Hcont. lia. }
  specialize (Hres (proj2 (proj2 (Hcont i ltac:(lia))))).
  cbn [while_true].
  destruct (loop_body w (Some p0) topic send_interval samples i c) as [tr r].
  unfold trace, result in *. cbn [fst snd] in *. subst tr r.
  rewrite bind_returns. cbn [fst snd].
  destruct (IH (S i) (S c) Hne Hiv) as [IH1 IH2]; [intros j Hj; apply Hcont; lia|].
  split; [done|].
  unfold sleeps in *. rewrite !omap_app, IH2.
  fold (sleeps (send_events w topic i v)). by rewrite send_events_sleeps.
Qed.

(** What the inner [try] logs at error level: one record for a failed send,
    none for an acknowledged one. *)
Lemma send_events_errors i v :
  logged ERROR (send_events w topic i v)
  = match send_failure w i v with
    | Some e =>
        if is_KafkaError e then [MsgSendFailed e]
        else if is_Exception e then [MsgSendUnexpected e]
        else []
    | None => []
    end.
Proof.
  assert (forall e, logged ERROR (handler_events e)
                    = if is_KafkaError e then [MsgSendFailed e]
                      else if is_Exception e then [MsgSendUnexpected e] else []) as Hh.
  { intros e. unfold handler_events. destruct (is_KafkaError e); [done|].
    by destruct (is_Exception e). }
  unfold send_events, send_failure.
  destruct (value_serializer v); [apply Hh|].
  destruct (send_outcome w i); [apply Hh|].
  destruct (get_outcome w i); [apply Hh|done].
Qed.

Lemma send_events_sends i v : sends (send_events w topic i v) = [(topic, v)].
Proof.
  destruct (send_events_shape i v) as (rest & -> & Hq).
  destruct (quiet_trace rest Hq) as (Hs & _). unfold sends in *. cbn. by rewrite Hs.
Qed.

End Loop.

(** ** The guarded send loop *)

Section Guarded.
Variable w : world.
Variable p0 : producer.
Variable topic : string.
Variable send_interval : Z.
Variable samples : list pyval.

(** No iteration closes the connection or is cut by the fuel, whatever the
    sample list. *)
Lemma loop_body_closes i c :
  closes (trace (loop_body w (Some p0) topic send_interval samples i c)) = 0%nat /\
  result (loop_body w (Some p0) topic send_interval samples i c) <> Running.
Proof.
  destruct samples as [|v0 rest] eqn:Hs.
  - unfold loop_body. rewrite time_sleep_eq.
    destruct (send_interval <? 0); [done|]. by destruct (sleep_outcome w i).
  - rewrite <- Hs.
    destruct (loop_body_shape w p0 topic send_interval samples i c)
      as (v & tl & _ & -> & Hq & Hrun & _); [by rewrite Hs|].
    split; [|done]. destruct (quiet_trace tl Hq) as (_ & Hc & _).
    unfold closes in *. by cbn.
Qed.

(** The loop itself never closes the connection and never completes. *)
Lemma while_true_closes fuel : forall i c,
  closes (trace (while_true w (Some p0) topic send_interval samples fuel i c)) = 0%nat /\
  result (while_true w (Some p0) topic send_interval samples fuel i c) <> Returns tt.
Proof.
  induction fuel as [|fuel IH]; intros i c; [done|].
  cbn [while_true]. rewrite bind_trace, bind_result, closes_app.
  destruct (loop_body_closes i c) as [-> Hrun].
  destruct (result (loop_body w (Some p0) topic send_interval samples i c)) as [c'|e|];
    [apply IH|done|done].
Qed.

Lemma cleanup_eq :
  (producer_close w (Some p0);; log INFO MsgStopped)
  = match close_outcome w with
    | None => ([EvClose; EvLog INFO MsgStopped], Returns tt)
    | Some e => ([EvClose], Raises e)
    end.
Proof. unfold producer_close. by destruct (close_outcome w). Qed.

(** The guarded loop while the loop is still running: nothing is closed. *)
Lemma send_loop_running fuel :
  result (while_true w (Some p0) topic send_interval samples fuel 0 0) = Running ->
  send_loop w (Some p0) topic send_interval samples fuel
  = while_true w (Some p0) topic send_interval samples fuel 0 0.
Proof.
  unfold send_loop, result.
  destruct (while_true w (Some p0) topic send_interval samples fuel 0 0) as [tr r].
  cbn. by intros ->.
Qed.

(** The guarded loop once the loop has raised [e]: the interrupt is logged,
    then the connection is closed, and that is all. *)
Lemma send_loop_raised fuel e :
  result (while_true w (Some p0) topic send_interval samples fuel 0 0) = Raises e ->
  send_loop w (Some p0) topic send_interval samples fuel
  = (trace (while_true w (Some p0) topic send_interval samples fuel 0 0)
       ++ (if is_KeyboardInterrupt e then [EvLog INFO MsgStopping] else [])
       ++ EvClose :: (match close_outcome w with
                      | None => [EvLog INFO MsgStopped]
                      | Some _ => []
                      end),
     match close_outcome w with
     | Some e' => Raises e'
     | None => if is_KeyboardInterrupt e then Returns tt else Raises e
     end).
Proof.
  unfold send_loop, result, trace. rewrite cleanup_eq.
  destruct (while_true w (Some p0) topic send_interval samples fuel 0 0) as [tr r].
  cbn. intros ->. unfold try_except, try_finally. cbn.
  destruct (is_KeyboardInterrupt e), (close_outcome w); cbn;
    by rewrite <- ?app_assoc, ?app_nil_r.
Qed.

(** An interrupt of the wait of iteration [k] ends the loop there. *)
Lemma while_true_interrupted k e0 fuel : forall i c,
  samples <> [] ->
  0 <= send_interval ->
  (forall j, (i <= j < k)%nat -> iteration_continues w j) ->
  (forall e, send_outcome w k = Some e -> is_Exception e = true) ->
  (forall e, get_outcome w k = inl e -> is_Exception e = true) ->
  sleep_outcome w k = Some e0 ->
  (i <= k < i + fuel)%nat ->
  result (while_true w (Some p0) topic send_interval samples fuel i c) = Raises e0.
Proof.
  induction fuel as [|fuel IH]; intros i c Hne Hiv Hcont Hs Hg Hsl Hk; [lia|].
  destruct (select_is_Some samples c Hne) as [v Hv].
  cbn [while_true]. rewrite bind_result.
  destruct (decide (i = k)) as [->|Hik].
  - rewrite (loop_body_eq _ _ _ _ _ _ _ _ Hv), time_sleep_eq, Hsl.
    assert (send_result w k v = Returns tt) as ->.
    { unfold send_result, send_failure.
      destruct (value_serializer v) eqn:Hser.
      { by rewrite (serializer_raises_Exception _ _ Hser). }
      destruct (send_outcome w k) as [e|] eqn:Ho; [by rewrite (Hs e)|].
      destruct (get_outcome w k) as [e|r] eqn:Hget; [by rewrite (Hg e)|done]. }
    destruct (Z.ltb_spec send_interval 0) as [?|_]; [lia|]. done.
  - destruct (loop_body_continues w p0 topic send_interval samples i c v Hv) as [_ Hres];
      [|done|].
    { intros e. apply send_failure_Exception, Hcont. lia. }
    rewrite Hres; [|apply Hcont; lia].
    apply IH; try done; [|lia]. intros j Hj. apply Hcont. lia.
Qed.

End Guarded.

(** C5.  Over a non-empty sample list of length N the selection is a pure
    round-robin: the cursor value [i] selects sample [i mod N], so [select i]
    and [select (i + N)] agree; every iteration hands the sample its cursor
    selects to the client once and leaves the cursor one higher; the loop
    started at cursor 0 therefore sends samples 0 mod N, 1 mod N, ... in
    this order, one per iteration, for as long as it runs. *)
Theorem round_robin_selection (w : world) (p0 : producer) (topic : string)
    (send_interval : Z) (samples : list pyval) :
  samples <> [] ->
  (forall i, select samples i = samples !! (i mod length samples)%nat /\
             is_Some (select samples i) /\
             select samples i = select samples (i + length samples)) /\
  (forall i c, exists v rest,
     select samples c = Some v /\
     trace (loop_body w (Some p0) topic send_interval samples i c) = EvSend topic v :: rest /\
     sends rest = [] /\
     (forall c', result (loop_body w (Some p0) topic send_interval samples i c) = Returns c' ->
                 c' = S c)) /\
  (forall fuel, exists k, (k <= fuel)%nat /\
     sends (trace (while_true w (Some p0) topic send_interval samples fuel 0 0))
     = omap (fun i => pair topic <$> select samples i) (seq 0 k) /\
     (result (while_true w (Some p0) topic send_interval samples fuel 0 0) = Running ->
      k = fuel)) /\
  (forall fuel,
     0 <= send_interval ->
     (forall i, (i < fuel)%nat -> iteration_continues w i) ->
     sends (trace (while_true w (Some p0) topic send_interval samples fuel 0 0))
     = omap (fun i => pair topic <$> select samples i) (seq 0 fuel)).
Proof.
  intros Hne. split; [|split; [|split]].
  - intros i. split; [done|]. split; [by apply select_is_Some|apply select_periodic].
  - intros i c.
    destruct (loop_body_shape w p0 topic send_interval samples i c Hne)
      as (v & rest & Hv & Htr & Hq & _ & Hc).
    exists v, rest. repeat split; try done. by apply quiet_trace.
  - intros fuel.
    destruct (while_true_shape w p0 topic send_interval samples fuel 0%nat 0%nat Hne)
      as (k & Hk & Hs & _ & _ & Hr & _).
    by exists k.
  - intros fuel Hiv Hcont.
    destruct (while_true_shape w p0 topic send_interval samples fuel 0%nat 0%nat Hne)
      as (k & Hk & Hs & _ & _ & Hr & _).
    destruct (while_true_goes_on w p0 topic send_interval samples fuel 0%nat 0%nat Hne Hiv)
      as [Hrun _]; [intros j Hj; apply Hcont; lia|].
    by rewrite Hs, (Hr Hrun).
Qed.

(** The theorem at the two built-in payloads: five iterations send Patient,
    Observation, Patient, Observation, Patient. *)
Lemma round_robin_selection_witness :
  sends (trace (while_true (Examples.quiet_world 0) (Some Examples.a_producer)
                  "fhir-resources" 10 default_payloads 5 0 0))
  = [("fhir-resources", VStr patient_text); ("fhir-resources", VStr observation_text);
     ("fhir-resources", VStr patient_text); ("fhir-resources", VStr observation_text);
     ("fhir-resources", VStr patient_text)].
Proof.
  destruct (round_robin_selection (Examples.quiet_world 0) Examples.a_producer
              "fhir-resources" 10 default_payloads) as (_ & _ & _ & H); [done|].
  rewrite (H 5%nat); [reflexivity|lia|].
  intros i _. repeat split; done.
Defined.




(** C7.  The [while True] loop never completes by itself; it is left only by
    an exception.  While it runs nothing is closed.  When it is left, by the
    operator's interrupt or by any other exception, the connection is closed
    exactly once, after the last send of the loop, and no send follows the
    close; after an interrupt the block returns normally, after any other
    exception that exception goes on (the close itself succeeding).  An
    interrupt of the wait of some iteration does end the run in this way. *)
Theorem connection_closed_once (w : world) (p0 : producer) (topic : string)
    (send_interval : Z) (samples : list pyval) (fuel : nat) :
  result (while_true w (Some p0) topic send_interval samples fuel 0 0) <> Returns tt /\
  closes (trace (while_true w (Some p0) topic send_interval samples fuel 0 0)) = 0%nat /\
  (result (while_true w (Some p0) topic send_interval samples fuel 0 0) = Running ->
   result (send_loop w (Some p0) topic send_interval samples fuel) = Running /\
   closes (trace (send_loop w (Some p0) topic send_interval samples fuel)) = 0%nat) /\
  (forall e,
     result (while_true w (Some p0) topic send_interval samples fuel 0 0) = Raises e ->
     closes (trace (send_loop w (Some p0) topic send_interval samples fuel)) = 1%nat /\
     (exists post,
        trace (send_loop w (Some p0) topic send_interval samples fuel)
        = trace (while_true w (Some p0) topic send_interval samples fuel 0 0)
            ++ (if is_KeyboardInterrupt e then [EvLog INFO MsgStopping] else [])
            ++ EvClose :: post /\
        sends post = [] /\
        closes post = 0%nat /\
        (close_outcome w = None -> post = [EvLog INFO MsgStopped])) /\
     (close_outcome w = None ->
      result (send_loop w (Some p0) topic send_interval samples fuel)
      = if is_KeyboardInterrupt e then Returns tt else Raises e)) /\
  (forall k,
     samples <> [] ->
     0 <= send_interval ->
     (forall j, (j <= k)%nat ->
        (forall e, send_outcome w j = Some e -> is_Exception e = true) /\
        (forall e, get_outcome w j = inl e -> is_Exception e = true)) ->
     (forall j, (j < k)%nat -> sleep_outcome w j = None) ->
     sleep_outcome w k = Some KeyboardInterrupt ->
     close_outcome w = None ->
     (k < fuel)%nat ->
     result (send_loop w (Some p0) topic send_interval samples fuel) = Returns tt /\
     closes (trace (send_loop w (Some p0) topic send_interval samples fuel)) = 1%nat).
Proof.
  destruct (while_true_closes w p0 topic send_interval samples fuel 0%nat 0%nat)
    as [Hcl Hret].
  assert (forall e,
            result (while_true w (Some p0) topic send_interval samples fuel 0 0) = Raises e ->
            closes (trace (send_loop w (Some p0) topic send_interval samples fuel)) = 1%nat)
    as Honce.
  { intros e He. rewrite (send_loop_raised _ _ _ _ _ _ _ He). unfold trace at 1. cbn [fst].
    rewrite !closes_app, Hcl.
    by destruct (is_KeyboardInterrupt e), (close_outcome w). }
  split; [done|]. split; [done|]. split; [|split].
  - intros Hrun. by rewrite (send_loop_running _ _ _ _ _ _ Hrun).
  - intros e He. split; [exact (Honce e He)|].
    rewrite (send_loop_raised _ _ _ _ _ _ _ He). unfold trace at 1, result at 1.
    cbn [fst snd]. split.
    + eexists. split; [done|]. by destruct (close_outcome w).
    + by intros ->.
  - intros k Hne Hiv Hexn Hsl Hint Hclose Hk.
    assert (result (while_true w (Some p0) topic send_interval samples fuel 0 0)
            = Raises KeyboardInterrupt) as He.
    { destruct (Hexn k ltac:(lia)) as [Hks Hkg].
      apply (while_true_interrupted w p0 topic send_interval samples k); try done; [|lia].
      intros j Hj. destruct (Hexn j ltac:(lia)) as [H1 H2].
      repeat split; [done|done|apply Hsl; lia]. }
    split; [|exact (Honce _ He)].
    rewrite (send_loop_raised _ _ _ _ _ _ _ He). unfold result. cbn [snd].
    by rewrite Hclose.
Qed.

(** The theorem where the operator interrupts the third wait: three records
    are sent, the interrupt is logged, the connection is closed once and the
    block returns. *)
Lemma connection_closed_once_witness :
  result (send_loop (Examples.interrupted_world 2) (Some Examples.a_producer)
            "fhir-resources" 10 default_payloads 7) = Returns tt /\
  closes (trace (send_loop (Examples.interrupted_world 2) (Some Examples.a_producer)
                   "fhir-resources" 10 default_payloads 7)) = 1%nat.
Proof.
  destruct (connection_closed_once (Examples.interrupted_world 2) Examples.a_producer
              "fhir-resources" 10 default_payloads 7) as (_ & _ & _ & _ & H).
  apply (H 2%nat).
  - done.
  - lia.
  - intros j _. split; intros e; by intros [=].
  - intros j Hj. unfold Examples.interrupted_world. cbn [sleep_outcome].
    destruct (Nat.eqb_spec j 2) as [->|_]; [lia|done].
  - reflexivity.
  - reflexivity.
  - lia.
Defined.

(** The other way out of the loop: with a negative interval the first wait
    raises ValueError; the connection is closed once and the error goes on. *)
Example negative_interval_closes_once :
  send_loop (Examples.quiet_world 0) (Some Examples.a_producer)
    "fhir-resources" (-1) default_payloads 3
  = ([EvSend "fhir-resources" (VStr patient_text);
      EvGet 10;
      EvLog INFO (MsgSent {| rm_topic := "fhir-resources"; rm_partition := 0; rm_offset := 0 |});
      EvClose;
      EvLog INFO MsgStopped],
     Raises (ValueError "sleep length must be non-negative")).
Proof. reflexivity. Qed.

(** ** The whole program *)

Section Main.
Variable json_accepts : string -> bool.
Variable int_of_str : string -> option Z.
Variable w : world.

Lemma effective_samples_nonempty loaded samples :
  result (effective_samples loaded) = Returns samples -> samples <> [].
Proof. rewrite effective_samples_returns. destruct loaded; by intros [= <-]. Qed.

Lemma effective_samples_texts loaded samples :
  Forall (fun v => exists s, v = VStr s) loaded ->
  result (effective_samples loaded) = Returns samples ->
  Forall (fun v => exists s, v = VStr s) samples.
Proof.
  rewrite effective_samples_returns. intros Hl.
  destruct loaded; intros [= <-]; [|done].
  repeat constructor; by eexists.
Qed.

(** A start-up that reaches the send loop hands it a connection and a
    non-empty list of texts. *)
Lemma startup_invariant p topic send_interval samples :
  result (startup json_accepts int_of_str w) = Returns (p, topic, send_interval, samples) ->
  (exists p0, p = Some p0) /\
  samples <> [] /\
  Forall (fun v => exists s, v = VStr s) samples.
Proof.
  intros (_ & _ & Hp & loaded & Hl & Hs)%startup_returns. split; [|split].
  - destruct p as [p0|]; [by eexists|]. by destruct (create_producer_Some w).
  - by eapply effective_samples_nonempty.
  - eapply effective_samples_texts; [|done]. by eapply load_fhir_samples_texts.
Qed.

(** The guarded loop sends what the loop sends, and warns as the loop does. *)
Lemma send_loop_sends p0 topic send_interval samples fuel :
  sends (trace (send_loop w (Some p0) topic send_interval samples fuel))
  = sends (trace (while_true w (Some p0) topic send_interval samples fuel 0 0)) /\
  logged WARNING (trace (send_loop w (Some p0) topic send_interval samples fuel))
  = logged WARNING (trace (while_true w (Some p0) topic send_interval samples fuel 0 0)).
Proof.
  destruct (while_true_closes w p0 topic send_interval samples fuel 0%nat 0%nat) as [_ Hret].
  destruct (result (while_true w (Some p0) topic send_interval samples fuel 0 0))
    as [[]|e|] eqn:Hr; [done| |].
  - rewrite (send_loop_raised _ _ _ _ _ _ _ Hr).
    split; unfold trace at 1; cbn [fst]; rewrite ?sends_app, ?logged_app;
      destruct (is_KeyboardInterrupt e), (close_outcome w); cbn; by rewrite !app_nil_r.
  - by rewrite (send_loop_running _ _ _ _ _ _ Hr).
Qed.

(** What [main] hands to the client: nothing, or the samples of a start-up
    that reached the loop, in cursor order. *)
Lemma main_sends fuel :
  sends (trace (main json_accepts int_of_str w fuel)) = [] \/
  exists p0 topic send_interval samples k,
    result (startup json_accepts int_of_str w)
    = Returns (Some p0, topic, send_interval, samples) /\
    (k <= fuel)%nat /\
    sends (trace (main json_accepts int_of_str w fuel))
    = omap (fun i => pair topic <$> select samples i) (seq 0 k).
Proof.
  unfold main. rewrite bind_trace, sends_app, startup_sends. cbn [app].
  destruct (result (startup json_accepts int_of_str w))
    as [[[[p topic] send_interval] samples]| |] eqn:Hst; [|by left..].
  destruct (startup_invariant _ _ _ _ Hst) as ([p0 ->] & Hne & _).
  right. exists p0, topic, send_interval, samples.
  destruct (while_true_shape w p0 topic send_interval samples fuel 0%nat 0%nat Hne)
    as (k & Hk & Hs & _).
  exists k. repeat split; [done|].
  destruct (send_loop_sends p0 topic send_interval samples fuel) as [-> _]. done.
Qed.

End Main.

(** ** Runs that differ in the cloud-auth variables *)

Section Azure.
Variable json_accepts : string -> bool.
Variable int_of_str : string -> option Z.
Variable w : world.
Variable env' : gmap string string.
Hypothesis agree : forall key, key ∉ azure_vars -> env' !! key = environ w !! key.

Lemma os_getenv_agree key dflt :
  key ∉ azure_vars -> os_getenv (with_environ env' w) key dflt = os_getenv w key dflt.
Proof. intros H. unfold os_getenv. cbn [environ with_environ]. by rewrite (agree _ H). Qed.

(** A variable name that is none of the cloud-auth ones. *)
Ltac not_azure :=
  unfold azure_vars; rewrite !not_elem_of_cons;
  repeat split; first [done | apply not_elem_of_nil].

Lemma client_config_agree : client_config (with_environ env' w) = client_config w.
Proof.
  unfold client_config. rewrite os_getenv_agree; [done|not_azure].
Qed.

Lemma create_producer_agree : create_producer (with_environ env' w) = create_producer w.
Proof.
  unfold create_producer. induction (seq 0 max_retries) as [|a l IH]; [done|].
  cbn [create_producer_for]. rewrite IH. f_equal.
  unfold create_producer_attempt, KafkaProducer. by rewrite client_config_agree.
Qed.

Lemma startup_tail_agree n :
  startup_tail json_accepts (with_environ env' w) n = startup_tail json_accepts w n.
Proof.
  unfold startup_tail. rewrite create_producer_agree.
  rewrite !os_getenv_agree; [done|not_azure..].
Qed.

Lemma startup_logs_agree n :
  without_azure_logs (startup_logs (with_environ env' w) n)
  = without_azure_logs (startup_logs w n).
Proof.
  unfold startup_logs. rewrite !os_getenv_agree; [done|not_azure..].
Qed.

Lemma send_loop_agree p topic n samples fuel :
  send_loop (with_environ env' w) p topic n samples fuel = send_loop w p topic n samples fuel.
Proof. reflexivity. Qed.

(** The two runs: the same outcome, and traces that differ at most in their
    first five records. *)
Lemma main_agree fuel :
  result (main json_accepts int_of_str (with_environ env' w) fuel)
  = result (main json_accepts int_of_str w fuel) /\
  exists logs' logs rest,
    trace (main json_accepts int_of_str (with_environ env' w) fuel) = logs' ++ rest /\
    trace (main json_accepts int_of_str w fuel) = logs ++ rest /\
    without_azure_logs logs' = without_azure_logs logs /\
    sends logs' = [] /\ sends logs = [].
Proof.
  unfold main. rewrite !bind_result, !bind_trace, !startup_split.
  rewrite os_getenv_agree by not_azure.
  destruct (int_of_str (os_getenv w "SEND_INTERVAL_SECONDS" "10")) as [n|].
  - rewrite startup_tail_agree. unfold trace, result. cbn [fst snd].
    split; [reflexivity|].
    exists (startup_logs (with_environ env' w) n), (startup_logs w n).
    eexists. rewrite <- !app_assoc.
    split; [reflexivity|]. split; [reflexivity|].
    split; [apply startup_logs_agree|done].
  - split; [done|]. by exists [], [], [].
Qed.

End Azure.

(** C8.  Two runs that differ only in the values of the cloud-auth variables
    (same other variables, same file system, same client and clock
    behaviour) hand the same records to the client, for the same topics and
    in the same order; they end the same way, and their traces are the same
    once the two log records showing the Azure URL and tenant are left out. *)
Theorem azure_variables_only_logged (json_accepts : string -> bool)
    (int_of_str : string -> option Z) (w : world) (env' : gmap string string)
    (fuel : nat) :
  (forall key, key ∉ azure_vars -> env' !! key = environ w !! key) ->
  sends (trace (main json_accepts int_of_str (with_environ env' w) fuel))
  = sends (trace (main json_accepts int_of_str w fuel)) /\
  result (main json_accepts int_of_str (with_environ env' w) fuel)
  = result (main json_accepts int_of_str w fuel) /\
  without_azure_logs (trace (main json_accepts int_of_str (with_environ env' w) fuel))
  = without_azure_logs (trace (main json_accepts int_of_str w fuel)).
Proof.
  intros Hagree.
  destruct (main_agree json_accepts int_of_str w env' Hagree fuel)
    as (Hres & logs' & logs & rest & -> & -> & Hlogs & Hs' & Hs).
  split; [|split; [done|]].
  - by rewrite !sends_app, Hs', Hs.
  - unfold without_azure_logs in *. by rewrite !List.filter_app, Hlogs.
Qed.

(** The theorem at a run with and without a tenant and a FHIR URL set. *)
Lemma azure_variables_only_logged_witness :
  sends (trace (main Ref.json_accepts Ref.int_of_str
                  (with_environ
                     (<["AZURE_TENANT_ID" := "tenant-a"]>
                        (<["AZURE_FHIR_URL" := "https://fhir.example.org"]> ∅))
                     (Examples.quiet_world 0)) 3))
  = sends (trace (main Ref.json_accepts Ref.int_of_str (Examples.quiet_world 0) 3)) /\
  sends (trace (main Ref.json_accepts Ref.int_of_str (Examples.quiet_world 0) 3))
  = [("fhir-resources", VStr patient_text); ("fhir-resources", VStr observation_text);
     ("fhir-resources", VStr patient_text)].
Proof.
  split; [|vm_compute; reflexivity].
  apply (azure_variables_only_logged Ref.json_accepts Ref.int_of_str
           (Examples.quiet_world 0)).
  intros key Hkey. unfold azure_vars in Hkey. rewrite !not_elem_of_cons in Hkey.
  destruct Hkey as (Ht & _ & _ & Hu & _).
  unfold Examples.quiet_world. cbn [environ].
  by rewrite !lookup_insert_ne by done.
Defined.



(** C10.  Every value [main] hands to the client is a text, so the value
    serializer takes its encode-text arm on it and returns the UTF-8 bytes
    of that text. *)
Theorem payloads_are_text (json_accepts : string -> bool)
    (int_of_str : string -> option Z) (w : world) (fuel : nat) :
  Forall (fun tv : string * pyval =>
            exists s, snd tv = VStr s /\
                      value_serializer_branch (snd tv) = EncodeText /\
                      value_serializer (snd tv) = inr (utf8_encode s))
         (sends (trace (main json_accepts int_of_str w fuel))).
Proof.
  destruct (main_sends json_accepts int_of_str w fuel)
    as [->|(p0 & topic & n & samples & k & Hst & _ & ->)]; [constructor|].
  destruct (startup_invariant _ _ _ _ _ _ _ Hst) as (_ & _ & Htexts).
  apply Forall_forall. intros [t v] (j & _ & Hj)%list_elem_of_omap.
  destruct (select samples j) as [v'|] eqn:Hsel; [|done].
  injection Hj as <- <-.
  apply list_elem_of_lookup_2 in Hsel.
  rewrite Forall_forall in Htexts. destruct (Htexts _ Hsel) as [s ->].
  by exists s.
Qed.

(** The theorem at a run of two iterations without sample files. *)
Lemma payloads_are_text_witness :
  sends (trace (main Ref.json_accepts Ref.int_of_str (Examples.quiet_world 0) 2))
  = [("fhir-resources", VStr patient_text); ("fhir-resources", VStr observation_text)] /\
  Forall (fun tv : string * pyval =>
            exists s, snd tv = VStr s /\
                      value_serializer_branch (snd tv) = EncodeText /\
                      value_serializer (snd tv) = inr (utf8_encode s))
         (sends (trace (main Ref.json_accepts Ref.int_of_str (Examples.quiet_world 0) 2))).
Proof.
  split; [vm_compute; reflexivity|].
  apply (payloads_are_text Ref.json_accepts Ref.int_of_str (Examples.quiet_world 0) 2).
Defined.

(** * Further properties *)

(** ** [create_producer] beyond the failures it retries *)

Section ConnectMore.
Variable w : world.

(** Attempts that fail with an exception of class Exception and whose wait
    runs to its end are skipped over. *)
Lemma for_retried_prefix k : forall n a,
  (a + k < max_retries)%nat ->
  (forall j, (a <= j < a + k)%nat ->
     (exists e, connect_outcome w j = Some e /\ is_Exception e = true) /\
     retry_sleep_outcome w j = None) ->
  create_producer_for w (seq a (k + n))
  = (flat_map (failed_attempt w) (seq a k) ++ trace (create_producer_for w (seq (a + k) n)),
     result (create_producer_for w (seq (a + k) n))).
Proof.
  induction k as [|k IH]; intros n a Hlt Hfail.
  - rewrite Nat.add_0_r. cbn [seq flat_map Nat.add app].
    by destruct (create_producer_for w (seq a n)).
  - destruct (Hfail a ltac:(lia)) as ((e & He & Hex) & Hsl).
    cbn [Nat.add seq create_producer_for flat_map].
    rewrite (attempt_retried w a e He Hex); [|unfold max_retries in *; lia|done].
    rewrite bind_returns, (IH n (S a)); [|lia|intros j Hj; apply Hfail; lia].
    cbn [fst snd]. replace (S a + k)%nat with (a + S k)%nat by lia.
    by rewrite app_assoc.
Qed.

(** An attempt whose failure is not of class Exception. *)
Lemma attempt_not_caught attempt e :
  connect_outcome w attempt = Some e ->
  is_Exception e = false ->
  create_producer_attempt w attempt = ([EvConnect (client_config w)], Raises e).
Proof.
  intros H He. unfold create_producer_attempt, KafkaProducer, try_except.
  rewrite H. cbn. by rewrite He.
Qed.

(** An attempt whose wait is cut short by [e']. *)
Lemma attempt_wait_cut attempt e e' :
  connect_outcome w attempt = Some e ->
  is_Exception e = true ->
  (attempt < max_retries - 1)%nat ->
  retry_sleep_outcome w attempt = Some e' ->
  create_producer_attempt w attempt = (failed_attempt w attempt, Raises e').
Proof.
  intros H He Hlt Hs. unfold create_producer_attempt, KafkaProducer, failed_attempt.
  rewrite H. unfold try_except. cbn. rewrite He.
  apply Nat.ltb_lt in Hlt. cbn in Hlt. rewrite Hlt, Hs. reflexivity.
Qed.

(** The trace and the outcome of one attempt, whatever the client does. *)
Lemma attempt_shape attempt :
  attempts_made (trace (create_producer_attempt w attempt)) = 1%nat /\
  (sleeps (trace (create_producer_attempt w attempt)) = [] \/
   (attempt < max_retries - 1)%nat /\
   sleeps (trace (create_producer_attempt w attempt)) = [retry_delay]) /\
  result (create_producer_attempt w attempt) <> Running /\
  Forall (fun ev => is_connect ev = true -> ev = EvConnect (client_config w))
    (trace (create_producer_attempt w attempt)).
Proof.
  destruct (connect_outcome w attempt) as [e|] eqn:Hc.
  2: { rewrite (attempt_connected w attempt Hc).
       repeat split; [by left|done|repeat constructor; done]. }
  destruct (is_Exception e) eqn:He.
  2: { rewrite (attempt_not_caught attempt e Hc He).
       repeat split; [by left|done|repeat constructor; done]. }
  destruct (Nat.lt_ge_cases attempt (max_retries - 1)) as [Hlt|Hge].
  2: { rewrite (attempt_gave_up w attempt e Hc He Hge).
       repeat split; [by left|done|repeat constructor; done]. }
  destruct (retry_sleep_outcome w attempt) as [e'|] eqn:Hs.
  - rewrite (attempt_wait_cut attempt e e' Hc He Hlt Hs). unfold failed_attempt. rewrite Hc.
    repeat split; [by right|done|repeat constructor; done].
  - rewrite (attempt_retried w attempt e Hc He Hlt Hs). unfold failed_attempt. rewrite Hc.
    repeat split; [by right|done|repeat constructor; done].
Qed.

(** The loop over the attempts [a], [a+1], ... up to the last one. *)
Lemma for_bounded n : forall a,
  (a + n = max_retries)%nat ->
  (attempts_made (trace (create_producer_for w (seq a n))) <= n)%nat /\
  (length (sleeps (trace (create_producer_for w (seq a n)))) <= n - 1)%nat /\
  Forall (fun secs => secs = retry_delay) (sleeps (trace (create_producer_for w (seq a n)))) /\
  result (create_producer_for w (seq a n)) <> Running /\
  Forall (fun ev => is_connect ev = true -> ev = EvConnect (client_config w))
    (trace (create_producer_for w (seq a n))).
Proof.
  induction n as [|n IH]; intros a Han.
  { cbn. repeat split; auto. }
  cbn [seq create_producer_for]. rewrite bind_trace, bind_result.
  destruct (attempt_shape a) as (Hatt & Hsl & Hrun & Hcfg).
  assert ((length (sleeps (trace (create_producer_attempt w a))) <= 1)%nat /\
          (length (sleeps (trace (create_producer_attempt w a))) = 1%nat -> (1 <= n)%nat) /\
          Forall (fun secs => secs = retry_delay)
            (sleeps (trace (create_producer_attempt w a)))) as (Hs1 & Hs2 & Hs3).
  { destruct Hsl as [->|[Hlt ->]]; cbn [length].
    - repeat split; [lia|lia|constructor].
    - unfold max_retries in *. repeat split; [lia|lia|by repeat constructor]. }
  clear Hsl.
  destruct (IH (S a) ltac:(lia)) as (IH1 & IH2 & IH3 & IH4 & IH5). clear IH.
  assert (forall tr : list event,
            attempts_made (trace (create_producer_attempt w a) ++ tr)
            = S (attempts_made tr)) as Hconn.
  { intros tr. unfold attempts_made in *. by rewrite List.filter_app, length_app, Hatt. }
  assert (forall tr : list event,
            sleeps (trace (create_producer_attempt w a) ++ tr)
            = sleeps (trace (create_producer_attempt w a)) ++ sleeps tr) as Hsleeps.
  { intros tr. apply omap_app. }
  rewrite Hconn, Hsleeps, length_app.
  destruct (result (create_producer_attempt w a)) as [[p|]| |]; [| | |done].
  - change (trace (mret (Some p) : M (option producer))) with (@nil event).
    rewrite app_nil_r. cbn [attempts_made sleeps omap list_omap length List.filter].
    repeat split; [lia|lia|done|done|by rewrite app_nil_r].
  - repeat split; [lia|lia| |done|by apply Forall_app].
    by apply Forall_app.
  - rewrite app_nil_r. cbn [attempts_made sleeps omap list_omap length List.filter].
    repeat split; [lia|lia|done|done|by rewrite app_nil_r].
Qed.

End ConnectMore.

(** X1.  Whatever the client and the clock do, [create_producer] ends: it
    returns a connection or raises, and never falls out of its loop with
    Python's None.  It calls the client at least once and at most 10 times,
    waits at most 9 times, every wait lasting 5 seconds, and every call
    carries the same configuration: all replicas acknowledge, 3 retries, a
    backoff of 1000 ms. *)
Theorem create_producer_bounded (w : world) :
  result (create_producer w) <> Running /\
  result (create_producer w) <> Returns None /\
  (1 <= attempts_made (trace (create_producer w)) <= 10)%nat /\
  (length (sleeps (trace (create_producer w))) <= 9)%nat /\
  Forall (fun secs => secs = 5) (sleeps (trace (create_producer w))) /\
  Forall (fun ev => is_connect ev = true ->
                    ev = EvConnect (client_config w) /\
                    acks (client_config w) = "all" /\
                    retries (client_config w) = 3 /\
                    retry_backoff_ms (client_config w) = 1000)
    (trace (create_producer w)).
Proof.
  destruct (for_bounded w 10 0%nat eq_refl) as (H1 & H2 & H3 & H4 & H5).
  split; [done|]. split; [apply create_producer_Some|].
  split; [split; [|done]|split; [done|split; [done|]]].
  - unfold create_producer. cbn [seq max_retries create_producer_for].
    rewrite bind_trace. unfold attempts_made. rewrite List.filter_app, length_app.
    destruct (attempt_shape w 0) as (Hatt & _). unfold attempts_made in Hatt.
    rewrite Hatt. lia.
  - eapply Forall_impl; [exact H5|]. intros ev Hev Hc. by rewrite (Hev Hc).
Qed.

(** X2.  An exception of the client that is not of class Exception (an
    interrupt, a system exit) is not retried: when the attempts before
    attempt [k] were retried and attempt [k] raises it, [create_producer]
    raises it at once, with no warning logged for it, no wait and no further
    attempt. *)
Theorem create_producer_lets_interrupt_through (w : world) (k : nat) (e : exn) :
  (k < 10)%nat ->
  (forall j, (j < k)%nat ->
     (exists e', connect_outcome w j = Some e' /\ is_Exception e' = true) /\
     retry_sleep_outcome w j = None) ->
  connect_outcome w k = Some e ->
  is_Exception e = false ->
  create_producer w
  = (flat_map (failed_attempt w) (seq 0 k) ++ [EvConnect (client_config w)], Raises e) /\
  attempts_made (trace (create_producer w)) = S k /\
  length (sleeps (trace (create_producer w))) = k.
Proof.
  intros Hk Hfail He Hex.
  assert (create_producer w
          = (flat_map (failed_attempt w) (seq 0 k) ++ [EvConnect (client_config w)],
             Raises e)) as Hrun.
  { unfold create_producer. change max_retries with 10%nat.
    replace 10%nat with (k + S (9 - k))%nat by lia.
    rewrite for_retried_prefix; [|unfold max_retries; lia|intros j Hj; apply Hfail; lia].
    cbn [Nat.add seq create_producer_for].
    by rewrite (attempt_not_caught w k e He Hex), bind_raises. }
  split; [done|]. rewrite Hrun. unfold trace. cbn [fst].
  destruct (failed_attempts_counts w k 0%nat) as [Hc Hs].
  { intros j Hj. destruct (Hfail j ltac:(lia)) as ((e' & -> & _) & _). done. }
  unfold attempts_made, sleeps in *.
  rewrite List.filter_app, length_app, omap_app, length_app, Hc, Hs, length_replicate.
  cbn. lia.
Qed.

(** The theorem where the operator interrupts the third connection attempt. *)
Lemma create_producer_lets_interrupt_through_witness :
  result (create_producer (Examples.interrupted_connect 2)) = Raises KeyboardInterrupt /\
  attempts_made (trace (create_producer (Examples.interrupted_connect 2))) = 3%nat /\
  sleeps (trace (create_producer (Examples.interrupted_connect 2))) = [5; 5].
Proof.
  destruct (create_producer_lets_interrupt_through (Examples.interrupted_connect 2) 2
              KeyboardInterrupt) as (Hrun & Ha & _).
  - lia.
  - intros j Hj. unfold Examples.interrupted_connect. cbn [connect_outcome retry_sleep_outcome].
    destruct (Nat.ltb_spec j 2) as [_|?]; [|lia]. split; [by eexists|done].
  - reflexivity.
  - reflexivity.
  - rewrite Hrun. split; [done|]. split; [by rewrite <- Hrun|]. reflexivity.
Defined.

(** X3.  An exception that cuts short the wait after a failed attempt is not
    caught either: when attempts 0 to [k] fail and the wait after attempt
    [k] < 9 is interrupted, [create_producer] raises what interrupted the
    wait, after [k + 1] client calls, and makes no further attempt. *)
Theorem create_producer_wait_interrupted (w : world) (k : nat) (e : exn) :
  (k < 9)%nat ->
  (forall j, (j <= k)%nat ->
     exists e', connect_outcome w j = Some e' /\ is_Exception e' = true) ->
  (forall j, (j < k)%nat -> retry_sleep_outcome w j = None) ->
  retry_sleep_outcome w k = Some e ->
  create_producer w = (flat_map (failed_attempt w) (seq 0 (S k)), Raises e) /\
  attempts_made (trace (create_producer w)) = S k /\
  sleeps (trace (create_producer w)) = replicate (S k) 5.
Proof.
  intros Hk Hfail Hsl He.
  assert (create_producer w = (flat_map (failed_attempt w) (seq 0 (S k)), Raises e)) as Hrun.
  { rewrite (seq_S k 0), flat_map_app. cbn [flat_map Nat.add]. rewrite app_nil_r.
    unfold create_producer. change max_retries with 10%nat.
    replace 10%nat with (k + S (9 - k))%nat by lia.
    rewrite for_retried_prefix; [|unfold max_retries; lia|].
    2: { intros j Hj. split; [apply Hfail; lia|apply Hsl; lia]. }
    cbn [Nat.add seq create_producer_for].
    destruct (Hfail k ltac:(lia)) as (e' & He' & Hex).
    rewrite (attempt_wait_cut w k e' e He' Hex); [|unfold max_retries; lia|done].
    by rewrite bind_raises. }
  split; [done|]. rewrite Hrun. unfold trace. cbn [fst].
  apply (failed_attempts_counts w (S k) 0%nat).
  intros j Hj. destruct (Hfail j ltac:(lia)) as (e' & -> & _). done.
Qed.

(** The theorem where the operator interrupts the wait after the second
    failed attempt. *)
Lemma create_producer_wait_interrupted_witness :
  result (create_producer (Examples.interrupted_retry_wait 1)) = Raises KeyboardInterrupt /\
  attempts_made (trace (create_producer (Examples.interrupted_retry_wait 1))) = 2%nat /\
  sleeps (trace (create_producer (Examples.interrupted_retry_wait 1))) = [5; 5].
Proof.
  destruct (create_producer_wait_interrupted (Examples.interrupted_retry_wait 1) 1
              KeyboardInterrupt) as (Hrun & Ha & Hs).
  - lia.
  - intros j _. by eexists.
  - intros j Hj. unfold Examples.interrupted_retry_wait. cbn [retry_sleep_outcome].
    destruct (Nat.eqb_spec j 1) as [->|_]; [lia|done].
  - reflexivity.
  - rewrite Hs. split; [by rewrite Hrun|]. split; [done|reflexivity].
Defined.

(** ** The loader, entry by entry *)

Section LoaderMore.
Variable json_accepts : string -> bool.

Lemma rstrip_idempotent s : rstrip (rstrip s) = rstrip s.
Proof.
  induction s as [|c s IH]; [done|].
  cbn [rstrip]. destruct (rstrip s) as [|c' r] eqn:Hr.
  - destruct (py_isspace c) eqn:Hc; [done|]. cbn. by rewrite Hc.
  - change (rstrip (String c (String c' r)))
      with (match rstrip (String c' r) with
            | EmptyString => if py_isspace c then EmptyString else String c EmptyString
            | String a b => String c (String a b)
            end).
    by rewrite IH.
Qed.

(** What [lstrip] leaves does not start with whitespace, and [rstrip] keeps
    a first character that is not whitespace. *)
Lemma lstrip_rstrip_lstrip s : lstrip (rstrip (lstrip s)) = rstrip (lstrip s).
Proof.
  induction s as [|c s IH]; [done|].
  cbn [lstrip]. destruct (py_isspace c) eqn:Hc; [done|].
  cbn [rstrip]. destruct (rstrip s) as [|c' r].
  - rewrite Hc. cbn. by rewrite Hc.
  - cbn. by rewrite Hc.
Qed.

Lemma strip_idempotent s : strip (strip s) = strip s.
Proof. unfold strip. by rewrite lstrip_rstrip_lstrip, rstrip_idempotent. Qed.

Lemma truthy_nonempty s : truthy s = true <-> s <> EmptyString.
Proof. by destruct s. Qed.

(** The text kept for an entry is trimmed, non-empty and valid. *)
Lemma accepted_text_clean d s :
  accepted_text json_accepts d = Some s ->
  s <> EmptyString /\ strip s = s /\ json_accepts s = true.
Proof.
  unfold accepted_text. destruct (d_read d) as [text| |]; [|done..].
  destruct (truthy (strip text)) eqn:Ht; [|done].
  destruct (json_accepts (strip text)) eqn:Hj; [|done].
  intros [= <-]. split; [by apply truthy_nonempty|]. split; [apply strip_idempotent|done].
Qed.

(** The events of the loader are log records, one at most per entry. *)
Lemma load_events_info l :
  logged INFO (flat_map (load_events json_accepts) l)
  = (fun d => MsgLoadedSample (d_name d)) <$> List.filter (is_valid_sample json_accepts) l.
Proof.
  induction l as [|d l IH]; [done|].
  cbn [flat_map List.filter]. rewrite logged_app, IH.
  unfold load_events, accepted_text, load_error, is_valid_sample.
  destruct (d_read d) as [text| |]; [|done..].
  destruct (truthy (strip text)); [|done].
  by destruct (json_accepts (strip text)).
Qed.

(** Every .json entry is loaded, refused with an error, or blank. *)
Lemma entries_accounted l :
  (length (List.filter (is_valid_sample json_accepts) l)
   + length (omap (fun d => MsgErrorLoading (d_name d) <$> load_error json_accepts d) l)
   + length (List.filter is_blank l))%nat
  = length l.
Proof.
  induction l as [|d l IH]; [done|].
  cbn [List.filter omap list_omap length]. rewrite <- IH.
  unfold is_valid_sample at 1, load_error at 1, is_blank at 1.
  destruct (d_read d) as [text| |]; cbn; [|lia..].
  destruct (truthy (strip text)); cbn; [|lia].
  destruct (json_accepts (strip text)); cbn; lia.
Qed.

Lemma load_events_length l :
  length (flat_map (load_events json_accepts) l)
  = (length (List.filter (is_valid_sample json_accepts) l)
     + length (omap (fun d => MsgErrorLoading (d_name d) <$> load_error json_accepts d) l))%nat.
Proof.
  induction l as [|d l IH]; [done|].
  cbn [flat_map List.filter omap list_omap]. rewrite length_app, IH.
  unfold load_events, accepted_text, is_valid_sample at 2, load_error at 1 3.
  destruct (d_read d) as [text| |]; cbn; [|lia..].
  destruct (truthy (strip text)); cbn; [|lia].
  destruct (json_accepts (strip text)); cbn; lia.
Qed.

End LoaderMore.

(** X4.  Every element [load_fhir_samples] returns is a text that is
    non-empty, has no whitespace left at either end and is accepted by
    [json.loads]; a file holding exactly that text is therefore loaded as
    that same text again. *)
Theorem loaded_samples_clean (json_accepts : string -> bool) (w : world)
    (path : string) (loaded : list pyval) :
  result (load_fhir_samples json_accepts w path) = Returns loaded ->
  Forall (fun v =>
            exists s, v = VStr s /\
                      s <> EmptyString /\
                      strip s = s /\
                      json_accepts s = true /\
                      forall name samples,
                        load_one json_accepts samples {| d_name := name; d_read := ReadText s |}
                        = ([EvLog INFO (MsgLoadedSample name)], Returns (samples ++ [VStr s])))
         loaded.
Proof.
  destruct (directory w path) as [[entries|]|msg|msg] eqn:Hd.
  2: { rewrite (load_fhir_samples_missing _ _ _ Hd). by intros [= <-]. }
  2: { by rewrite (load_fhir_samples_exists_raises _ _ _ _ Hd). }
  2: { by rewrite (load_fhir_samples_listing_raises _ _ _ _ Hd). }
  rewrite (load_fhir_samples_present _ _ _ _ Hd). intros [= <-].
  apply Forall_forall. unfold loaded_from. intros v (d & _ & Hv)%list_elem_of_omap.
  destruct (accepted_text json_accepts d) as [s|] eqn:Hacc; [|done].
  injection Hv as <-.
  destruct (accepted_text_clean _ _ _ Hacc) as (Hne & Hstrip & Hok).
  exists s. repeat split; try done.
  intros name samples. rewrite load_one_eq.
  unfold load_events, accepted_text. cbn [d_read d_name].
  rewrite Hstrip, Hok. by destruct s.
Qed.

(** The theorem at the directory holding a.json and the empty b.json. *)
Lemma loaded_samples_clean_witness :
  Forall (fun v =>
            exists s, v = VStr s /\
                      s <> EmptyString /\
                      strip s = s /\
                      Ref.json_accepts s = true /\
                      forall name samples,
                        load_one Ref.json_accepts samples
                          {| d_name := name; d_read := ReadText s |}
                        = ([EvLog INFO (MsgLoadedSample name)], Returns (samples ++ [VStr s])))
         [VStr (json_dumps sample_patient)].
Proof.
  apply (loaded_samples_clean Ref.json_accepts
           (Examples.dir_world [Examples.a_json; Examples.b_json]) "/app/samples").
  vm_compute. reflexivity.
Defined.

(** X5.  An entry whose name does not end in .json, and a file that is empty
    after trimming, are invisible to the loader: with or without such an
    entry in the directory it logs the same records and returns the same
    list. *)
Theorem skipped_entries_invisible (json_accepts : string -> bool) (w w' : world)
    (path : string) (before after : list dirent) (d : dirent) :
  directory w path = Some (before ++ d :: after) ->
  directory w' path = Some (before ++ after) ->
  glob_json d = false \/ is_blank d = true ->
  load_fhir_samples json_accepts w path = load_fhir_samples json_accepts w' path.
Proof.
  intros Hd Hd' Hskip.
  rewrite (load_fhir_samples_present _ _ _ _ Hd), (load_fhir_samples_present _ _ _ _ Hd').
  unfold loaded_from, json_files.
  rewrite !List.filter_app. cbn [List.filter].
  destruct (glob_json d) eqn:Hg; [|done].
  destruct Hskip as [|Hb]; [done|].
  rewrite !flat_map_app, !omap_app. cbn [flat_map omap list_omap].
  assert (accepted_text json_accepts d = None /\ load_events json_accepts d = [])
    as [-> ->]; [|done].
  unfold is_blank, load_events, accepted_text, load_error in *.
  destruct (d_read d) as [text| |]; [|done..].
  by destruct (truthy (strip text)).
Qed.

(** The theorem at a directory with and without notes.txt between a.json and
    c.json. *)
Lemma skipped_entries_invisible_witness :
  load_fhir_samples Ref.json_accepts
    (Examples.dir_world [Examples.a_json; Examples.notes_txt; Examples.c_json]) "/app/samples"
  = load_fhir_samples Ref.json_accepts
      (Examples.dir_world [Examples.a_json; Examples.c_json]) "/app/samples".
Proof.
  apply (skipped_entries_invisible Ref.json_accepts _ _ "/app/samples"
           [Examples.a_json] [Examples.c_json] Examples.notes_txt).
  - reflexivity.
  - reflexivity.
  - left. reflexivity.
Defined.

(** X6.  The loader accounts for every .json entry of an existing directory
    exactly once: it is loaded (one info record naming the file, one element
    returned), or refused (one error record, nothing returned), or blank
    (nothing logged, nothing returned).  The loader logs nothing else. *)
Theorem loader_accounting (json_accepts : string -> bool) (w : world)
    (path : string) (entries : list dirent) :
  directory w path = Some entries ->
  exists loaded,
    result (load_fhir_samples json_accepts w path) = Returns loaded /\
    logged INFO (trace (load_fhir_samples json_accepts w path))
    = (fun d => MsgLoadedSample (d_name d))
        <$> List.filter (is_valid_sample json_accepts) (json_files entries) /\
    length (logged INFO (trace (load_fhir_samples json_accepts w path))) = length loaded /\
    length (trace (load_fhir_samples json_accepts w path))
    = (length loaded
       + length (logged ERROR (trace (load_fhir_samples json_accepts w path))))%nat /\
    (length loaded
     + length (logged ERROR (trace (load_fhir_samples json_accepts w path)))
     + length (List.filter is_blank (json_files entries)))%nat
    = length (json_files entries) /\
    (length loaded <= length entries)%nat.
Proof.
  intros Hd. exists (loaded_from json_accepts entries).
  rewrite (load_fhir_samples_present _ _ _ _ Hd). unfold trace, result. cbn [fst snd].
  rewrite load_events_info, load_errors_logged, load_events_length, loaded_from_length,
    length_fmap.
  pose proof (entries_accounted json_accepts (json_files entries)) as Hacc.
  repeat split; try done.
  assert (length (json_files entries) <= length entries)%nat; [|lia].
  unfold json_files. clear. induction entries as [|d l IH]; [done|].
  cbn. destruct (glob_json d); cbn; lia.
Qed.

(** The theorem at a directory with a valid file, an empty file, a broken
    file, an unreadable entry and a file of another extension. *)
Lemma loader_accounting_witness :
  exists loaded,
    result (load_fhir_samples Ref.json_accepts
              (Examples.dir_world
                 [Examples.a_json; Examples.b_json; Examples.c_json;
                  Examples.d_json; Examples.notes_txt]) "/app/samples")
    = Returns loaded /\
    length loaded = 1%nat /\
    logged INFO
      (trace (load_fhir_samples Ref.json_accepts
                (Examples.dir_world
                   [Examples.a_json; Examples.b_json; Examples.c_json;
                    Examples.d_json; Examples.notes_txt]) "/app/samples"))
    = [MsgLoadedSample "a.json"].
Proof.
  destruct (loader_accounting Ref.json_accepts
              (Examples.dir_world
                 [Examples.a_json; Examples.b_json; Examples.c_json;
                  Examples.d_json; Examples.notes_txt]) "/app/samples"
              [Examples.a_json; Examples.b_json; Examples.c_json;
               Examples.d_json; Examples.notes_txt] eq_refl)
    as (loaded & Hres & Hinfo & Hlen & _).
  exists loaded. split; [done|]. rewrite <- Hlen, Hinfo. split; vm_compute; reflexivity.
Defined.

(** X7.  Loading follows the listing order and works entry by entry: the
    loader run on a directory listed as [l1 ++ l2] logs what it logs on
    [l1] followed by what it logs on [l2], and returns the samples of [l1]
    followed by those of [l2]. *)
Theorem load_concatenates (json_accepts : string -> bool) (w1 w2 w : world)
    (path : string) (l1 l2 : list dirent) :
  directory w1 path = Some l1 ->
  directory w2 path = Some l2 ->
  directory w path = Some (l1 ++ l2) ->
  trace (load_fhir_samples json_accepts w path)
  = trace (load_fhir_samples json_accepts w1 path)
      ++ trace (load_fhir_samples json_accepts w2 path) /\
  exists r1 r2,
    result (load_fhir_samples json_accepts w1 path) = Returns r1 /\
    result (load_fhir_samples json_accepts w2 path) = Returns r2 /\
    result (load_fhir_samples json_accepts w path) = Returns (r1 ++ r2).
Proof.
  intros H1 H2 H.
  rewrite (load_fhir_samples_present _ _ _ _ H1), (load_fhir_samples_present _ _ _ _ H2),
    (load_fhir_samples_present _ _ _ _ H).
  unfold trace, result. cbn [fst snd]. split.
  - unfold json_files. by rewrite List.filter_app, flat_map_app.
  - eexists _, _. split; [done|]. split; [done|]. by rewrite loaded_from_app.
Qed.

(** The theorem at two directories and the directory listing both. *)
Lemma load_concatenates_witness :
  result (load_fhir_samples Ref.json_accepts
            (Examples.dir_world
               [Examples.e_json; Examples.c_json; Examples.b_json; Examples.a_json])
            "/app/samples")
  = Returns [VStr "{}"; VStr (json_dumps sample_patient)].
Proof.
  destruct (load_concatenates Ref.json_accepts
              (Examples.dir_world [Examples.e_json; Examples.c_json])
              (Examples.dir_world [Examples.b_json; Examples.a_json])
              (Examples.dir_world
                 [Examples.e_json; Examples.c_json; Examples.b_json; Examples.a_json])
              "/app/samples" [Examples.e_json; Examples.c_json]
              [Examples.b_json; Examples.a_json] eq_refl eq_refl eq_refl)
    as (_ & r1 & r2 & H1 & H2 & ->).
  vm_compute in H1, H2. injection H1 as <-. injection H2 as <-. reflexivity.
Defined.

(** ** The send loop, iteration by iteration *)

Lemma flat_map_seq_shift {A} (f : nat -> list A) k : forall a,
  flat_map f (seq (S a) k) = flat_map (fun j => f (S j)) (seq a k).
Proof.
  induction k as [|k IH]; intros a; [done|].
  cbn [seq flat_map]. by rewrite IH.
Qed.

Section LoopMore.
Variable w : world.
Variable p0 : producer.
Variable topic : string.
Variable send_interval : Z.
Variable samples : list pyval.

(** Iterations that go on are skipped over. *)
Lemma while_true_prefix k : forall m i c,
  samples <> [] ->
  0 <= send_interval ->
  (forall j, (i <= j < i + k)%nat -> iteration_continues w j) ->
  while_true w (Some p0) topic send_interval samples (k + m) i c
  = (continued_iterations w topic send_interval samples i c k
       ++ trace (while_true w (Some p0) topic send_interval samples m (i + k) (c + k)),
     result (while_true w (Some p0) topic send_interval samples m (i + k) (c + k))).
Proof.
  unfold continued_iterations.
  induction k as [|k IH]; intros m i c Hne Hiv Hcont.
  - rewrite !Nat.add_0_r. cbn [Nat.add seq flat_map app].
    by destruct (while_true w (Some p0) topic send_interval samples m i c).
  - destruct (select_is_Some samples c Hne) as [v Hv].
    destruct (loop_body_continues w p0 topic send_interval samples i c v Hv) as [Htr Hres];
      [|done|].
    { intros e. apply send_failure_Exception, Hcont. lia. }
    specialize (Hres (proj2 (proj2 (Hcont i ltac:(lia))))).
    cbn [Nat.add while_true].
    destruct (loop_body w (Some p0) topic send_interval samples i c) as [tr r].
    unfold trace, result in Htr, Hres. cbn [fst snd] in Htr, Hres. subst tr r.
    rewrite bind_returns, (IH m (S i) (S c) Hne Hiv); [|intros j Hj; apply Hcont; lia].
    cbn [fst snd].
    replace (S i + k)%nat with (i + S k)%nat by lia.
    replace (S c + k)%nat with (c + S k)%nat by lia.
    f_equal. rewrite app_assoc. f_equal.
    cbn [seq flat_map]. rewrite !Nat.add_0_r, Hv. f_equal.
    rewrite flat_map_seq_shift. apply flat_map_ext. intros j.
    by replace (c + S j)%nat with (S c + j)%nat by lia;
       replace (i + S j)%nat with (S i + j)%nat by lia.
Qed.

(** The iterations that go on: one send and one wait each, nothing closed. *)
Lemma continued_iterations_counts i c k :
  samples <> [] ->
  sends (continued_iterations w topic send_interval samples i c k)
  = omap (fun j => pair topic <$> select samples (c + j)) (seq 0 k) /\
  sleeps (continued_iterations w topic send_interval samples i c k)
  = replicate k send_interval /\
  closes (continued_iterations w topic send_interval samples i c k) = 0%nat.
Proof.
  unfold continued_iterations. intros Hne.
  replace (replicate k send_interval)
    with (replicate (length (seq 0 k)) send_interval) by (by rewrite length_seq).
  generalize (seq 0 k). intros l.
  induction l as [|j l (IH1 & IH2 & IH3)]; [done|].
  cbn [flat_map length replicate]. simpl omap.
  destruct (select_is_Some samples (c + j) Hne) as [v ->].
  rewrite !sends_app, !closes_app. unfold sleeps in *. rewrite !omap_app.
  fold (sleeps (send_events w topic (i + j) v)).
  rewrite send_events_sleeps, send_events_sends, IH1, IH2, IH3.
  destruct (send_events_shape w topic (i + j) v) as (rest & -> & Hq).
  destruct (quiet_trace rest Hq) as (_ & Hc & _).
  repeat split; try done. unfold closes in *. cbn. by rewrite Hc.
Qed.

(** An iteration whose send raises what the inner [try] does not catch. *)
Lemma loop_body_not_caught i c v e :
  select samples c = Some v ->
  send_failure w i v = Some e ->
  is_Exception e = false ->
  loop_body w (Some p0) topic send_interval samples i c
  = (send_events w topic i v, Raises e).
Proof.
  intros Hv Hf He. rewrite (loop_body_eq _ _ _ _ _ _ _ _ Hv).
  unfold send_result. by rewrite Hf, He.
Qed.


End LoopMore.

(** ** [main] before the loop *)

Section StartupMore.
Variable json_accepts : string -> bool.
Variable int_of_str : string -> option Z.
Variable w : world.

Lemma create_producer_attempt_closes attempt :
  closes (trace (create_producer_attempt w attempt)) = 0%nat.
Proof.
  destruct (connect_outcome w attempt) as [e|] eqn:Hc.
  2: { by rewrite (attempt_connected w attempt Hc). }
  destruct (is_Exception e) eqn:He.
  2: { by rewrite (attempt_not_caught w attempt e Hc He). }
  destruct (Nat.lt_ge_cases attempt (max_retries - 1)) as [Hlt|Hge].
  2: { by rewrite (attempt_gave_up w attempt e Hc He Hge). }
  destruct (retry_sleep_outcome w attempt) as [e'|] eqn:Hs.
  - rewrite (attempt_wait_cut w attempt e e' Hc He Hlt Hs). unfold failed_attempt.
    by rewrite Hc.
  - rewrite (attempt_retried w attempt e Hc He Hlt Hs). unfold failed_attempt.
    by rewrite Hc.
Qed.

Lemma create_producer_closes : closes (trace (create_producer w)) = 0%nat.
Proof.
  unfold create_producer. induction (seq 0 max_retries) as [|a l IH]; [done|].
  cbn [create_producer_for]. rewrite bind_trace, closes_app, create_producer_attempt_closes.
  by destruct (result (create_producer_attempt w a)) as [[p|]| |].
Qed.

Lemma load_fhir_samples_closes path :
  closes (trace (load_fhir_samples json_accepts w path)) = 0%nat.
Proof.
  destruct (directory w path) as [[entries|]|msg|msg] eqn:Hd.
  - rewrite (load_fhir_samples_present _ _ _ _ Hd). unfold trace. cbn [fst].
    induction (json_files entries) as [|d l IH]; [done|].
    cbn [flat_map]. rewrite closes_app, IH. unfold load_events.
    destruct (accepted_text json_accepts d); [done|].
    by destruct (load_error json_accepts d).
  - by rewrite (load_fhir_samples_missing _ _ _ Hd).
  - by rewrite (load_fhir_samples_exists_raises _ _ _ _ Hd).
  - by rewrite (load_fhir_samples_listing_raises _ _ _ _ Hd).
Qed.

(** Start-up closes nothing. *)
Lemma startup_closes : closes (trace (startup json_accepts int_of_str w)) = 0%nat.
Proof.
  rewrite startup_split.
  destruct (int_of_str (os_getenv w "SEND_INTERVAL_SECONDS" "10")) as [n|]; [|done].
  unfold trace at 1. cbn [fst]. rewrite closes_app.
  replace (closes (startup_logs w n)) with 0%nat by done.
  unfold startup_tail. rewrite bind_trace, closes_app, create_producer_closes.
  destruct (result (create_producer w)) as [p| |]; [|done..].
  rewrite bind_trace, closes_app, load_fhir_samples_closes.
  destruct (result (load_fhir_samples json_accepts w _)) as [loaded| |]; [|done..].
  by destruct loaded.
Qed.

(** Start-up from a connection and a loader result on. *)
Lemma startup_reaches_loop n p loaded :
  int_of_str (os_getenv w "SEND_INTERVAL_SECONDS" "10") = Some n ->
  result (create_producer w) = Returns p ->
  result (load_fhir_samples json_accepts w (os_getenv w "FHIR_SAMPLES_PATH" "/app/samples"))
  = Returns loaded ->
  result (startup json_accepts int_of_str w)
  = Returns (p, os_getenv w "KAFKA_TOPIC" "fhir-resources", n,
             match loaded with
             | [] => default_payloads
             | _ => loaded
             end).
Proof.
  intros Hn Hp Hl. rewrite startup_split, Hn. unfold result at 1. cbn [snd].
  unfold startup_tail. rewrite bind_result, Hp, bind_result, Hl.
  by destruct loaded.
Qed.

End StartupMore.

(** X8.  When SEND_INTERVAL_SECONDS does not read as an integer, [main]
    raises the ValueError of the conversion before it does anything else:
    nothing is logged, no connection is attempted, the samples directory is
    not read, nothing is sent or closed. *)
Theorem main_rejects_bad_interval (json_accepts : string -> bool)
    (int_of_str : string -> option Z) (w : world) (fuel : nat) :
  int_of_str (os_getenv w "SEND_INTERVAL_SECONDS" "10") = None ->
  main json_accepts int_of_str w fuel
  = ([], Raises (ValueError (os_getenv w "SEND_INTERVAL_SECONDS" "10"))).
Proof.
  intros H. unfold main. rewrite startup_split, H. reflexivity.
Qed.

(** The theorem where the interval is set to a word. *)
Lemma main_rejects_bad_interval_witness :
  main Ref.json_accepts Ref.int_of_str
    (Examples.env_world (<["SEND_INTERVAL_SECONDS" := "soon"]> ∅)) 5
  = ([], Raises (ValueError "soon")).
Proof.
  rewrite (main_rejects_bad_interval Ref.json_accepts Ref.int_of_str
             (Examples.env_world (<["SEND_INTERVAL_SECONDS" := "soon"]> ∅)) 5).
  - vm_compute. reflexivity.
  - vm_compute. reflexivity.
Defined.

(** X9.  When [create_producer] raises, [main] raises the same exception
    right after it: its trace is the five opening log records followed by
    the trace of the connection attempts, so the samples directory is never
    read, nothing is sent, and nothing is closed. *)
Theorem main_stops_when_connection_fails (json_accepts : string -> bool)
    (int_of_str : string -> option Z) (w : world) (fuel : nat) (n : Z) (e : exn) :
  int_of_str (os_getenv w "SEND_INTERVAL_SECONDS" "10") = Some n ->
  result (create_producer w) = Raises e ->
  main json_accepts int_of_str w fuel
  = (startup_logs w n ++ trace (create_producer w), Raises e) /\
  sends (trace (main json_accepts int_of_str w fuel)) = [] /\
  closes (trace (main json_accepts int_of_str w fuel)) = 0%nat.
Proof.
  intros Hn He.
  assert (main json_accepts int_of_str w fuel
          = (startup_logs w n ++ trace (create_producer w), Raises e)) as Hrun.
  { unfold main. rewrite startup_split, Hn. unfold startup_tail.
    destruct (create_producer w) as [tr r]. unfold result in He. cbn [snd] in He. subst r.
    reflexivity. }
  split; [done|]. rewrite Hrun. unfold trace at 1 3. cbn [fst].
  rewrite sends_app, closes_app, create_producer_closes.
  unfold create_producer. by rewrite create_producer_for_sends.
Qed.

(** The theorem at a broker that never answers. *)
Lemma main_stops_when_connection_fails_witness :
  result (main Ref.json_accepts Ref.int_of_str (Examples.quiet_world 10) 5)
  = Raises (KafkaError "NoBrokersAvailable") /\
  sends (trace (main Ref.json_accepts Ref.int_of_str (Examples.quiet_world 10) 5)) = [] /\
  closes (trace (main Ref.json_accepts Ref.int_of_str (Examples.quiet_world 10) 5)) = 0%nat.
Proof.
  destruct (main_stops_when_connection_fails Ref.json_accepts Ref.int_of_str
              (Examples.quiet_world 10) 5 10 (KafkaError "NoBrokersAvailable"))
    as (Hrun & Hs & Hc).
  - vm_compute. reflexivity.
  - vm_compute. reflexivity.
  - rewrite Hs, Hc, Hrun. done.
Defined.

(** ** Runs of the send loop *)

(** X10.  In a run where every record is acknowledged, each iteration does
    four things in this order: it hands the selected sample to the client,
    waits for the acknowledgement with a timeout of 10 seconds, logs the
    broker's record metadata once at info level, and waits [send_interval]
    seconds.  Nothing is logged at error level. *)
Theorem acknowledged_run (w : world) (p0 : producer) (topic : string)
    (send_interval : Z) (samples : list pyval) (fuel : nat)
    (ack : nat -> RecordMetadata) :
  samples <> [] ->
  0 <= send_interval ->
  Forall (fun v => exists bytes, value_serializer v = inr bytes) samples ->
  (forall i, (i < fuel)%nat ->
     send_outcome w i = None /\ get_outcome w i = inr (ack i) /\ sleep_outcome w i = None) ->
  trace (while_true w (Some p0) topic send_interval samples fuel 0 0)
  = flat_map
      (fun i =>
         match select samples i with
         | Some v =>
             [EvSend topic v; EvGet 10; EvLog INFO (MsgSent (ack i)); EvSleep send_interval]
         | None => []
         end)
      (seq 0 fuel) /\
  logged INFO (trace (while_true w (Some p0) topic send_interval samples fuel 0 0))
  = (fun i => MsgSent (ack i)) <$> seq 0 fuel /\
  logged ERROR (trace (while_true w (Some p0) topic send_interval samples fuel 0 0)) = [].
Proof.
  intros Hne Hiv Hser Hack.
  assert (trace (while_true w (Some p0) topic send_interval samples fuel 0 0)
          = flat_map
              (fun i =>
                 match select samples i with
                 | Some v =>
                     [EvSend topic v; EvGet 10; EvLog INFO (MsgSent (ack i));
                      EvSleep send_interval]
                 | None => []
                 end)
              (seq 0 fuel)) as Htr.
  { replace fuel with (fuel + 0)%nat at 1 by lia.
    rewrite (while_true_prefix w p0 topic send_interval samples fuel 0 0%nat 0%nat Hne Hiv).
    2: { intros j Hj. destruct (Hack j ltac:(lia)) as (Hs & Hg & Hsl).
         repeat split; [by rewrite Hs|by rewrite Hg|done]. }
    unfold trace. cbn [fst while_true]. rewrite app_nil_r.
    unfold continued_iterations.
    assert (Forall (fun j => (j < fuel)%nat) (seq 0 fuel)) as Hin.
    { apply Forall_forall. intros j Hj%list_elem_of_In%in_seq. lia. }
    induction Hin as [|j l Hj _ IH]; [done|].
    cbn [flat_map]. rewrite IH. f_equal. cbn [Nat.add].
    destruct (select samples j) as [v|] eqn:Hv; [|done].
    destruct (Hack j Hj) as (Hs & Hg & _).
    rewrite Forall_forall in Hser.
    destruct (Hser v) as [bytes Hb]; [by eapply list_elem_of_lookup_2|].
    unfold send_events. by rewrite Hb, Hs, Hg. }
  rewrite Htr. split; [done|]. clear -Hne.
  induction (seq 0 fuel) as [|j l [IH1 IH2]]; [done|].
  cbn [flat_map fmap list_fmap]. rewrite !logged_app, IH1, IH2.
  by destruct (select_is_Some samples j Hne) as [v ->].
Qed.

(** The theorem at three acknowledged sends of the built-in payloads. *)
Lemma acknowledged_run_witness :
  logged INFO
    (trace (while_true (Examples.quiet_world 0) (Some Examples.a_producer)
              "fhir-resources" 10 default_payloads 3 0 0))
  = [MsgSent {| rm_topic := "fhir-resources"; rm_partition := 0; rm_offset := 0 |};
     MsgSent {| rm_topic := "fhir-resources"; rm_partition := 0; rm_offset := 1 |};
     MsgSent {| rm_topic := "fhir-resources"; rm_partition := 0; rm_offset := 2 |}].
Proof.
  destruct (acknowledged_run (Examples.quiet_world 0) Examples.a_producer
              "fhir-resources" 10 default_payloads 3
              (fun i => {| rm_topic := "fhir-resources"; rm_partition := 0;
                           rm_offset := Z.of_nat i |}))
    as (_ & Hinfo & _).
  - done.
  - lia.
  - repeat constructor; by eexists.
  - done.
  - rewrite Hinfo. reflexivity.
Defined.

(** X11.  An exception of the send that is not of class Exception (the
    operator's interrupt during [send] or during the wait for the
    acknowledgement) is not absorbed: the iteration ends there, with no error
    logged and without its wait, and the loop ends with it.  The connection
    is then closed once, and after an interrupt the block returns
    normally. *)
Theorem interrupt_during_send (w : world) (p0 : producer) (topic : string)
    (send_interval : Z) (samples : list pyval) (k fuel : nat) (v : pyval) (e : exn) :
  samples <> [] ->
  0 <= send_interval ->
  (forall j, (j < k)%nat -> iteration_continues w j) ->
  select samples k = Some v ->
  send_failure w k v = Some e ->
  is_Exception e = false ->
  (k < fuel)%nat ->
  while_true w (Some p0) topic send_interval samples fuel 0 0
  = (continued_iterations w topic send_interval samples 0 0 k ++ send_events w topic k v,
     Raises e) /\
  sleeps (trace (while_true w (Some p0) topic send_interval samples fuel 0 0))
  = replicate k send_interval /\
  logged ERROR (send_events w topic k v) = [] /\
  closes (trace (send_loop w (Some p0) topic send_interval samples fuel)) = 1%nat /\
  (close_outcome w = None ->
   result (send_loop w (Some p0) topic send_interval samples fuel)
   = if is_KeyboardInterrupt e then Returns tt else Raises e).
Proof.
  intros Hne Hiv Hcont Hv Hf He Hk.
  assert (while_true w (Some p0) topic send_interval samples fuel 0 0
          = (continued_iterations w topic send_interval samples 0 0 k
               ++ send_events w topic k v,
             Raises e)) as Hrun.
  { replace fuel with (k + S (fuel - S k))%nat by lia.
    rewrite (while_true_prefix w p0 topic send_interval samples k _ 0%nat 0%nat Hne Hiv);
      [|intros j Hj; apply Hcont; lia].
    cbn [Nat.add while_true].
    by rewrite (loop_body_not_caught w p0 topic send_interval samples k k v e Hv Hf He),
      bind_raises. }
  assert (result (while_true w (Some p0) topic send_interval samples fuel 0 0) = Raises e)
    as Hres by (by rewrite Hrun).
  split; [done|]. split; [|split; [|split]].
  - rewrite Hrun. unfold trace. cbn [fst]. unfold sleeps. rewrite omap_app.
    fold (sleeps (send_events w topic k v)).
    fold (sleeps (continued_iterations w topic send_interval samples 0 0 k)).
    destruct (continued_iterations_counts w topic send_interval samples 0 0 k Hne)
      as (_ & -> & _).
    by rewrite send_events_sleeps, app_nil_r.
  - rewrite send_events_errors, Hf, He. by destruct e.
  - rewrite (send_loop_raised _ _ _ _ _ _ _ Hres). unfold trace at 1. cbn [fst].
    destruct (while_true_closes w p0 topic send_interval samples fuel 0%nat 0%nat) as [Hc _].
    rewrite !closes_app, Hc.
    by destruct (is_KeyboardInterrupt e), (close_outcome w).
  - intros Hclose. rewrite (send_loop_raised _ _ _ _ _ _ _ Hres). unfold result. cbn [snd].
    by rewrite Hclose.
Qed.

(** The theorem where the operator interrupts the wait for the second
    acknowledgement. *)
Lemma interrupt_during_send_witness :
  result (send_loop (Examples.interrupted_get 1) (Some Examples.a_producer)
            "fhir-resources" 10 default_payloads 4) = Returns tt /\
  sleeps (trace (while_true (Examples.interrupted_get 1) (Some Examples.a_producer)
                   "fhir-resources" 10 default_payloads 4 0 0)) = [10] /\
  closes (trace (send_loop (Examples.interrupted_get 1) (Some Examples.a_producer)
                   "fhir-resources" 10 default_payloads 4)) = 1%nat.
Proof.
  destruct (interrupt_during_send (Examples.interrupted_get 1) Examples.a_producer
              "fhir-resources" 10 default_payloads 1 4 (VStr observation_text)
              KeyboardInterrupt) as (_ & Hs & _ & Hc & Hr).
  - done.
  - lia.
  - intros j Hj. assert (j = 0%nat) as -> by lia. repeat split; done.
  - reflexivity.
  - reflexivity.
  - reflexivity.
  - lia.
  - rewrite Hs, Hc, (Hr eq_refl). done.
Defined.

(** X12.  Over an empty sample list the loop idles: every iteration logs the
    no-samples warning, waits [send_interval] seconds and leaves the cursor
    where it was; nothing is ever handed to the client, with or without a
    connection. *)
Theorem empty_samples_idle (w : world) (p : option producer) (topic : string)
    (send_interval : Z) (fuel i c : nat) :
  0 <= send_interval ->
  (forall j, (i <= j < i + fuel)%nat -> sleep_outcome w j = None) ->
  while_true w p topic send_interval [] fuel i c
  = (concat (replicate fuel (idle_iteration send_interval)), Running) /\
  sends (trace (while_true w p topic send_interval [] fuel i c)) = [] /\
  (forall j, (i <= j < i + fuel)%nat ->
     loop_body w p topic send_interval [] j c = (idle_iteration send_interval, Returns c)).
Proof.
  intros Hiv Hsl.
  assert (forall j, (i <= j < i + fuel)%nat ->
            loop_body w p topic send_interval [] j c
            = (idle_iteration send_interval, Returns c)) as Hbody.
  { intros j Hj. unfold loop_body. rewrite time_sleep_eq, (Hsl j Hj).
    destruct (Z.ltb_spec send_interval 0) as [?|_]; [lia|done]. }
  assert (while_true w p topic send_interval [] fuel i c
          = (concat (replicate fuel (idle_iteration send_interval)), Running)) as Hrun.
  { clear Hsl. revert i Hbody. induction fuel as [|fuel' IH]; intros i Hbody; [done|].
    cbn [while_true]. rewrite (Hbody i ltac:(lia)), bind_returns.
    rewrite (IH (S i)); [done|]. intros j Hj. apply Hbody. lia. }
  split; [done|]. split; [|done].
  rewrite Hrun. unfold trace. cbn [fst]. clear.
  induction fuel as [|fuel' IH]; [done|]. cbn [replicate concat]. by rewrite sends_app, IH.
Qed.

(** The theorem at three idle iterations, without a connection. *)
Lemma empty_samples_idle_witness :
  while_true (Examples.quiet_world 0) None "fhir-resources" 10 [] 3 0 0
  = ([EvLog WARNING MsgNoSamplesAvailable; EvSleep 10;
      EvLog WARNING MsgNoSamplesAvailable; EvSleep 10;
      EvLog WARNING MsgNoSamplesAvailable; EvSleep 10], Running).
Proof.
  destruct (empty_samples_idle (Examples.quiet_world 0) None "fhir-resources" 10 3 0 0)
    as (Hrun & _); [lia|done|].
  rewrite Hrun. reflexivity.
Defined.



(** X14.  When closing the connection fails, the exception of [close]
    replaces whatever ended the loop, an interrupt included; the trace ends
    with the one attempt to close, and the final stopped record is not
    logged. *)
Theorem close_failure_propagates (w : world) (p0 : producer) (topic : string)
    (send_interval : Z) (samples : list pyval) (fuel : nat) (e e' : exn) :
  result (while_true w (Some p0) topic send_interval samples fuel 0 0) = Raises e ->
  close_outcome w = Some e' ->
  send_loop w (Some p0) topic send_interval samples fuel
  = (trace (while_true w (Some p0) topic send_interval samples fuel 0 0)
       ++ (if is_KeyboardInterrupt e then [EvLog INFO MsgStopping] else [])
       ++ [EvClose],
     Raises e') /\
  closes (trace (send_loop w (Some p0) topic send_interval samples fuel)) = 1%nat.
Proof.
  intros He Hclose.
  assert (send_loop w (Some p0) topic send_interval samples fuel
          = (trace (while_true w (Some p0) topic send_interval samples fuel 0 0)
               ++ (if is_KeyboardInterrupt e then [EvLog INFO MsgStopping] else [])
               ++ [EvClose],
             Raises e')) as Hrun.
  { by rewrite (send_loop_raised _ _ _ _ _ _ _ He), Hclose. }
  split; [done|]. rewrite Hrun. unfold trace at 1. cbn [fst].
  destruct (while_true_closes w p0 topic send_interval samples fuel 0%nat 0%nat) as [Hc _].
  rewrite !closes_app, Hc. by destruct (is_KeyboardInterrupt e).
Qed.

(** The theorem where the third wait is interrupted and the close times
    out. *)
Lemma close_failure_propagates_witness :
  result (send_loop (Examples.failing_close 2) (Some Examples.a_producer)
            "fhir-resources" 10 default_payloads 5)
  = Raises (KafkaError "KafkaTimeoutError") /\
  closes (trace (send_loop (Examples.failing_close 2) (Some Examples.a_producer)
                   "fhir-resources" 10 default_payloads 5)) = 1%nat.
Proof.
  destruct (close_failure_propagates (Examples.failing_close 2) Examples.a_producer
              "fhir-resources" 10 default_payloads 5 KeyboardInterrupt
              (KafkaError "KafkaTimeoutError")) as (Hrun & Hc).
  - reflexivity.
  - reflexivity.
  - rewrite Hc, Hrun. done.
Defined.

(** ** [main] as a whole *)

Lemma omap_length_le {A B} (f : A -> option B) (l : list A) :
  (length (omap f l) <= length l)%nat.
Proof.
  induction l as [|a l IH]; [done|].
  change (omap f (a :: l)) with (match f a with Some y => y :: omap f l | None => omap f l end).
  destruct (f a); cbn [length]; lia.
Qed.

(** The built-in payloads alternate. *)
Lemma select_default_payloads i :
  select default_payloads i
  = Some (VStr (if Nat.even i then patient_text else observation_text)).
Proof.
  assert (select default_payloads i
          = Some (VStr (if Nat.even i then patient_text else observation_text)) /\
          select default_payloads (S i)
          = Some (VStr (if Nat.even (S i) then patient_text else observation_text)))
    as [H _]; [|done].
  induction i as [|i [IH1 IH2]]; [split; reflexivity|].
  split; [exact IH2|].
  rewrite (select_periodic default_payloads i) in IH1.
  replace (i + length default_payloads)%nat with (S (S i)) in IH1 by (cbn; lia).
  by rewrite IH1.
Qed.

(** X15.  Every record [main] hands to the client goes to the topic named by
    KAFKA_TOPIC (fhir-resources when the variable is unset), there is at
    most one record per iteration, and when the loader returned at least
    one sample every payload sent is one of the loaded samples: the
    built-in payloads are then never sent. *)
Theorem main_sends_to_configured_topic (json_accepts : string -> bool)
    (int_of_str : string -> option Z) (w : world) (fuel : nat) :
  Forall (fun tv : string * pyval => fst tv = os_getenv w "KAFKA_TOPIC" "fhir-resources")
    (sends (trace (main json_accepts int_of_str w fuel))) /\
  (length (sends (trace (main json_accepts int_of_str w fuel))) <= fuel)%nat /\
  (forall loaded,
     result (load_fhir_samples json_accepts w (os_getenv w "FHIR_SAMPLES_PATH" "/app/samples"))
     = Returns loaded ->
     loaded <> [] ->
     Forall (fun tv : string * pyval => snd tv ∈ loaded)
       (sends (trace (main json_accepts int_of_str w fuel)))).
Proof.
  destruct (main_sends json_accepts int_of_str w fuel)
    as [->|(p0 & topic & n & samples & k & Hst & Hk & ->)].
  { repeat split; [constructor|cbn; lia|constructor]. }
  apply startup_returns in Hst as (-> & _ & _ & loaded & Hl & Hs).
  split; [|split].
  - apply Forall_forall. intros [t v] (j & _ & Hj)%list_elem_of_omap.
    destruct (select samples j); [|done]. by injection Hj as <- <-.
  - etrans; [apply omap_length_le|]. by rewrite length_seq.
  - intros loaded' Hl' Hne. rewrite Hl in Hl'. injection Hl' as <-.
    rewrite effective_samples_returns in Hs.
    destruct loaded as [|v0 tl] eqn:Hld; [done|]. injection Hs as <-.
    apply Forall_forall. intros [t v] (j & _ & Hj)%list_elem_of_omap.
    destruct (select (v0 :: tl) j) as [v'|] eqn:Hsel; [|done].
    injection Hj as <- <-. by apply list_elem_of_lookup_2 in Hsel.
Qed.

(** The theorem at a directory with one valid file: three iterations send
    that file's text three times to the topic of the environment. *)
Lemma main_sends_to_configured_topic_witness :
  sends (trace (main Ref.json_accepts Ref.int_of_str
                  (with_environ (<["KAFKA_TOPIC" := "ward-7"]> ∅)
                     (Examples.dir_world [Examples.e_json; Examples.b_json])) 3))
  = [("ward-7", VStr "{}"); ("ward-7", VStr "{}"); ("ward-7", VStr "{}")] /\
  Forall (fun tv : string * pyval => snd tv ∈ [VStr "{}"])
    (sends (trace (main Ref.json_accepts Ref.int_of_str
                     (with_environ (<["KAFKA_TOPIC" := "ward-7"]> ∅)
                        (Examples.dir_world [Examples.e_json; Examples.b_json])) 3))).
Proof.
  split; [vm_compute; reflexivity|].
  destruct (main_sends_to_configured_topic Ref.json_accepts Ref.int_of_str
              (with_environ (<["KAFKA_TOPIC" := "ward-7"]> ∅)
                 (Examples.dir_world [Examples.e_json; Examples.b_json])) 3)
    as (_ & _ & H).
  apply H; [vm_compute; reflexivity|done].
Defined.

(** X16.  With a readable interval, a broker that answers and no samples
    directory, [main] sends the built-in payloads in turn, the Patient in
    the even iterations and the Observation in the odd ones, to the
    configured topic, for as long as the iterations go on. *)
Theorem missing_directory_sends_defaults (json_accepts : string -> bool)
    (int_of_str : string -> option Z) (w : world) (n : Z) (p : option producer)
    (fuel : nat) :
  int_of_str (os_getenv w "SEND_INTERVAL_SECONDS" "10") = Some n ->
  0 <= n ->
  result (create_producer w) = Returns p ->
  directory w (os_getenv w "FHIR_SAMPLES_PATH" "/app/samples") = None ->
  (forall i, (i < fuel)%nat -> iteration_continues w i) ->
  sends (trace (main json_accepts int_of_str w fuel))
  = (fun i => (os_getenv w "KAFKA_TOPIC" "fhir-resources",
               VStr (if Nat.even i then patient_text else observation_text)))
      <$> seq 0 fuel /\
  result (main json_accepts int_of_str w fuel) = Running.
Proof.
  intros Hn Hiv Hp Hd Hcont.
  pose proof (startup_reaches_loop json_accepts int_of_str w n p [] Hn Hp
                ltac:(by rewrite (load_fhir_samples_missing _ _ _ Hd))) as Hst.
  destruct p as [p0|]; [|by destruct (create_producer_Some w)].
  assert (default_payloads <> []) as Hne by done.
  destruct (while_true_goes_on w p0 (os_getenv w "KAFKA_TOPIC" "fhir-resources") n
              default_payloads fuel 0%nat 0%nat Hne Hiv) as [Hrun Hsl];
    [intros j Hj; apply Hcont; lia|].
  destruct (while_true_shape w p0 (os_getenv w "KAFKA_TOPIC" "fhir-resources") n
              default_payloads fuel 0%nat 0%nat Hne) as (k & _ & Hs & _ & _ & Hk & _).
  rewrite (Hk Hrun) in Hs.
  pose proof (send_loop_running _ _ _ _ _ _ Hrun) as Hloop.
  unfold main. rewrite bind_trace, bind_result, Hst, Hloop.
  split; [|done].
  rewrite sends_app, startup_sends, Hs. cbn [app]. clear.
  induction (seq 0 fuel) as [|j l IH]; [done|].
  simpl omap. rewrite select_default_payloads.
  cbn [fmap option_fmap option_map list_fmap]. f_equal. exact IH.
Qed.

(** The theorem at the quiet world: the first two sends are the Patient and
    the Observation. *)
Lemma missing_directory_sends_defaults_witness :
  sends (trace (main Ref.json_accepts Ref.int_of_str (Examples.quiet_world 0) 2))
  = [("fhir-resources", VStr patient_text); ("fhir-resources", VStr observation_text)] /\
  result (main Ref.json_accepts Ref.int_of_str (Examples.quiet_world 0) 2) = Running.
Proof.
  destruct (missing_directory_sends_defaults Ref.json_accepts Ref.int_of_str
              (Examples.quiet_world 0) 10
              (Some (Producer (client_config (Examples.quiet_world 0)))) 2)
    as [Hs Hr].
  - vm_compute. reflexivity.
  - lia.
  - vm_compute. reflexivity.
  - reflexivity.
  - intros i _. repeat split; done.
  - rewrite Hs, Hr. split; [|done]. vm_compute. reflexivity.
Defined.

(** X17.  [main] closes the connection at most once.  It closes nothing
    while the loop is running and nothing when start-up fails (no readable
    interval, no connection); once start-up has reached the loop and the
    loop has been left, it has closed the connection exactly once. *)
Theorem main_closes_at_most_once (json_accepts : string -> bool)
    (int_of_str : string -> option Z) (w : world) (fuel : nat) :
  (closes (trace (main json_accepts int_of_str w fuel)) <= 1)%nat /\
  (result (main json_accepts int_of_str w fuel) = Running ->
   closes (trace (main json_accepts int_of_str w fuel)) = 0%nat) /\
  ((forall x, result (startup json_accepts int_of_str w) <> Returns x) ->
   closes (trace (main json_accepts int_of_str w fuel)) = 0%nat) /\
  (forall x, result (startup json_accepts int_of_str w) = Returns x ->
   result (main json_accepts int_of_str w fuel) <> Running ->
   closes (trace (main json_accepts int_of_str w fuel)) = 1%nat).
Proof.
  unfold main. rewrite bind_trace, bind_result, closes_app, startup_closes. cbn [Nat.add].
  destruct (result (startup json_accepts int_of_str w))
    as [[[[p topic] n] samples]| |] eqn:Hst.
  2,3: repeat split; try done; cbn; lia.
  destruct (startup_invariant _ _ _ _ _ _ _ Hst) as ([p0 ->] & _ & _).
  destruct (while_true_closes w p0 topic n samples fuel 0%nat 0%nat) as [Hc Hret].
  destruct (result (while_true w (Some p0) topic n samples fuel 0 0)) as [[]|e|] eqn:Hr;
    [done| |].
  - assert (closes (trace (send_loop w (Some p0) topic n samples fuel)) = 1%nat) as Hone.
    { rewrite (send_loop_raised _ _ _ _ _ _ _ Hr). unfold trace at 1. cbn [fst].
      rewrite !closes_app, Hc. by destruct (is_KeyboardInterrupt e), (close_outcome w). }
    assert (result (send_loop w (Some p0) topic n samples fuel) <> Running) as Hnr.
    { rewrite (send_loop_raised _ _ _ _ _ _ _ Hr). unfold result. cbn [snd].
      by destruct (close_outcome w), (is_KeyboardInterrupt e). }
    rewrite Hone. repeat split; try done.
    all: try (intros Hno; by destruct (Hno (Some p0, topic, n, samples))).
  - rewrite (send_loop_running _ _ _ _ _ _ Hr), Hc, Hr.
    repeat split; try done; try lia.
Qed.

(** The theorem at a run interrupted in its second wait. *)
Lemma main_closes_at_most_once_witness :
  closes (trace (main Ref.json_accepts Ref.int_of_str (Examples.interrupted_world 1) 6))
  = 1%nat.
Proof.
  destruct (main_closes_at_most_once Ref.json_accepts Ref.int_of_str
              (Examples.interrupted_world 1) 6) as (_ & _ & _ & H).
  eapply H.
  - vm_compute. reflexivity.
  - vm_compute. discriminate.
Defined.

(** ** The serializer of keys *)

Lemma utf8_encode_nonempty s : s <> EmptyString -> utf8_encode s <> [].
Proof.
  destruct s as [|c s]; [done|]. intros _. cbn [utf8_encode]. unfold utf8_char.
  by destruct (N_of_ascii c <? 128)%N.
Qed.

(** X18.  The key serializer turns an empty key into no key: it returns
    None for None and for the empty text, and the UTF-8 bytes of any other
    text, so it never produces an empty byte string. *)
Theorem key_serializer_no_empty_key (x : option string) :
  key_serializer x <> Some [] /\
  (key_serializer x = None <-> x = None \/ x = Some EmptyString) /\
  (forall s, x = Some s -> s <> EmptyString -> key_serializer x = Some (utf8_encode s)).
Proof.
  destruct x as [[|c s]|]; cbn [key_serializer truthy]; (split; [|split; [split|]]).
  all: try done; auto.
  - by intros s [= <-].
  - intros [= H]. by apply (utf8_encode_nonempty (String c s)).
  - by intros [|].
  - by intros s' [= <-].
Qed.

(** ** The file name pattern *)

Lemma string_app_cons a (s t : string) : String a s +:+ t = String a (s +:+ t).
Proof. reflexivity. Qed.

Lemma string_app_assoc (s1 s2 s3 : string) : (s1 +:+ s2) +:+ s3 = s1 +:+ s2 +:+ s3.
Proof. induction s1 as [|a s1 IH]; [done|]. by rewrite !string_app_cons, IH. Qed.

Lemma string_app_nil_r (s : string) : s +:+ EmptyString = s.
Proof. induction s as [|a s IH]; [done|]. by rewrite string_app_cons, IH. Qed.

Lemma rev_app_spec s1 : forall s2, String.rev_app s1 s2 = String.rev s1 +:+ s2.
Proof.
  unfold String.rev. induction s1 as [|a s1 IH]; intros s2; [done|].
  cbn [String.rev_app]. rewrite (IH (String a s2)), (IH (String a EmptyString)).
  by rewrite string_app_assoc.
Qed.

Lemma string_rev_cons a s : String.rev (String a s) = String.rev s +:+ String a EmptyString.
Proof. unfold String.rev at 1. cbn [String.rev_app]. apply rev_app_spec. Qed.

Lemma string_rev_app s1 s2 : String.rev (s1 +:+ s2) = String.rev s2 +:+ String.rev s1.
Proof.
  induction s1 as [|a s1 IH].
  - change (EmptyString +:+ s2) with s2. by rewrite string_app_nil_r.
  - by rewrite string_app_cons, !string_rev_cons, IH, string_app_assoc.
Qed.

Lemma string_rev_involutive s : String.rev (String.rev s) = s.
Proof.
  induction s as [|a s IH]; [done|].
  by rewrite string_rev_cons, string_rev_app, IH.
Qed.

Lemma prefix_spec p : forall s, String.prefix p s = true <-> exists t, s = p +:+ t.
Proof.
  induction p as [|a p IH]; intros s.
  - destruct s; cbn; split; eauto.
  - destruct s as [|b s]; cbn.
    + split; [done|]. by intros [t [=]].
    + destruct (ascii_dec a b) as [->|Hne].
      * rewrite IH. split; intros [t Ht]; exists t; [by rewrite Ht|by injection Ht].
      * split; [done|]. intros [t [= ? _]]. done.
Qed.

(** X19.  The loader reads an entry exactly when its name is some text,
    possibly empty, followed by .json in lower case. *)
Theorem glob_matches_json_suffix (d : dirent) :
  glob_json d = true <-> exists stem, d_name d = stem +:+ ".json".
Proof.
  unfold glob_json, ends_with. rewrite prefix_spec. split.
  - intros [t Ht]. exists (String.rev t).
    rewrite <- (string_rev_involutive (d_name d)), Ht, string_rev_app.
    by rewrite (string_rev_involutive ".json").
  - intros [stem ->]. exists (String.rev stem). by rewrite string_rev_app.
Qed.
